(** * PyEnvy: a shallow embedding of the environment engine

    The development follows the Python sources
    [venv_manager.py], [config.py], [workers.py] and the merge routine of
    [pyenvy.py].  Python [str] values are modelled as [string], a sequence
    of code points below 256; dictionaries are [gmap string string], the
    "seen" sets are [gset string].  Everything the code asks the operating
    system (file tests, symbolic-link resolution, directory listings,
    child processes) is read from a [World] record, a snapshot of the
    machine at the moment of the call. *)

From Stdlib Require Import ZArith NArith Ascii String List Bool Lia.
From Stdlib Require Import Sorting.Sorted Sorting.Permutation.
From stdpp Require Import base gmap strings list sets.

Set Warnings "-register-all,-clear-no-such-hyp".

Local Open Scope string_scope.
Local Open Scope list_scope.

(** ** Python string primitives *)

Module Py.

(** [str.isspace] on one code point below 256. *)
Definition isspace (c : ascii) : bool :=
  let n := N_of_ascii c in
  ((9 <=? n) && (n <=? 13) || (28 <=? n) && (n <=? 32)
   || (n =? 133) || (n =? 160))%N.

Fixpoint lstrip (s : string) : string :=
  match s with
  | EmptyString => EmptyString
  | String c s' => if isspace c then lstrip s' else s
  end.

Fixpoint rstrip (s : string) : string :=
  match s with
  | EmptyString => EmptyString
  | String c s' =>
      match rstrip s' with
      | EmptyString => if isspace c then EmptyString else String c EmptyString
      | r => String c r
      end
  end.

(** [s.strip()] *)
Definition strip (s : string) : string := rstrip (lstrip s).

(** [c in s] for a one-character [c]. *)
Fixpoint has_char (c : ascii) (s : string) : bool :=
  match s with
  | EmptyString => false
  | String d s' => Ascii.eqb d c || has_char c s'
  end.

(** [s.count(c)] for a one-character [c]. *)
Fixpoint count (c : ascii) (s : string) : nat :=
  match s with
  | EmptyString => 0
  | String d s' => (if Ascii.eqb d c then 1 else 0) + count c s'
  end.

(** [s.partition(c)] for a one-character separator: the text before the
    first occurrence, the separator, the text after it; [(s, "", "")] when
    the separator does not occur. *)
Fixpoint partition (c : ascii) (s : string) : string * string * string :=
  match s with
  | EmptyString => (EmptyString, EmptyString, EmptyString)
  | String d s' =>
      if Ascii.eqb d c then (EmptyString, String c EmptyString, s')
      else let '(a, m, b) := partition c s' in (String d a, m, b)
  end.

(** [s.split(c)] for a one-character separator. *)
Fixpoint split (c : ascii) (s : string) : list string :=
  match s with
  | EmptyString => [EmptyString]
  | String d s' =>
      if Ascii.eqb d c then EmptyString :: split c s'
      else match split c s' with
           | [] => [String d EmptyString]
           | h :: t => String d h :: t
           end
  end.

(** [sep.join(parts)] *)
Fixpoint join_with (sep : string) (parts : list string) : string :=
  match parts with
  | [] => EmptyString
  | [p] => p
  | p :: ps => (p ++ sep ++ join_with sep ps)%string
  end.

Definition startswith (p s : string) : bool := String.prefix p s.

Fixpoint endswith_char (c : ascii) (s : string) : bool :=
  match s with
  | EmptyString => false
  | String d EmptyString => Ascii.eqb d c
  | String _ s' => endswith_char c s'
  end.

(** [s[n:]] *)
Fixpoint drop (n : nat) (s : string) : string :=
  match n, s with
  | O, _ => s
  | S k, EmptyString => EmptyString
  | S k, String _ s' => drop k s'
  end.

(** [s.replace(old, new)] for a non-empty [old]: occurrences are replaced
    left to right without overlap.  [skip] counts the characters of a
    matched occurrence still to be dropped. *)
Fixpoint replace_go (old new : string) (skip : nat) (s : string) : string :=
  match s with
  | EmptyString => EmptyString
  | String c s' =>
      match skip with
      | S k => replace_go old new k s'
      | O =>
          if String.prefix old s
          then (new ++ replace_go old new (String.length old - 1) s')%string
          else String c (replace_go old new 0 s')
      end
  end.

Definition replace (old new s : string) : string := replace_go old new 0 s.

(** [str.lower] on one code point below 256: the ASCII capitals and the
    Latin-1 capitals (all of 192..222 but the multiplication sign 215). *)
Definition lower_char (c : ascii) : ascii :=
  let n := N_of_ascii c in
  if ((65 <=? n) && (n <=? 90)
      || (192 <=? n) && (n <=? 222) && negb (n =? 215))%N
  then ascii_of_N (n + 32) else c.

Fixpoint lower (s : string) : string :=
  match s with
  | EmptyString => EmptyString
  | String c s' => String (lower_char c) (lower s')
  end.

(** [a <= b] on [str]: lexicographic on code points. *)
Definition str_le (a b : string) : bool := String.leb a b.

(** [int(s)]: surrounding white space, an optional sign, decimal digits
    with single underscores between digits; [None] is [ValueError]. *)
Definition digit_val (c : ascii) : option Z :=
  let n := N_of_ascii c in
  if ((48 <=? n) && (n <=? 57))%N then Some (Z.of_N n - 48)%Z else None.

Fixpoint digits_go (acc : Z) (after_digit : bool) (s : string) : option Z :=
  match s with
  | EmptyString => if after_digit then Some acc else None
  | String c s' =>
      match digit_val c with
      | Some d => digits_go (10 * acc + d)%Z true s'
      | None =>
          if Ascii.eqb c "_" && after_digit then digits_go acc false s'
          else None
      end
  end.

Definition int (s : string) : option Z :=
  match strip s with
  | String "+" r => digits_go 0 false r
  | String "-" r => Z.opp <$> digits_go 0 false r
  | t => digits_go 0 false t
  end.

(** Iterating a text file: the lines of [content], each with its line
    terminator, no empty line after a final terminator. *)
Fixpoint file_lines_go (cur : string) (s : string) : list string :=
  match s with
  | EmptyString =>
      match cur with EmptyString => [] | _ => [cur] end
  | String c s' =>
      if Ascii.eqb c "010"
      then (cur ++ String c EmptyString)%string :: file_lines_go EmptyString s'
      else file_lines_go (cur ++ String c EmptyString)%string s'
  end.

Definition file_lines (content : string) : list string :=
  file_lines_go EmptyString content.

End Py.

(** ** [os.path] (POSIX flavour) *)

Module OsPath.

Definition sep : ascii := "/".

(** [os.path.join(a, b)] *)
Definition join (a b : string) : string :=
  if Py.startswith "/" b then b
  else if String.eqb a EmptyString || Py.endswith_char sep a then (a ++ b)%string
  else (a ++ "/" ++ b)%string.

(** [os.path.join(a, b, c)] *)
Definition join3 (a b c : string) : string := join (join a b) c.

(** [os.path.basename(p)]: the text after the last separator. *)
Definition basename (p : string) : string :=
  List.last (Py.split sep p) EmptyString.

Definition isabs (p : string) : bool := Py.startswith "/" p.

(** The component loop of [os.path.normpath]; [new_comps] is kept in
    reverse order, so its head is [new_comps[-1]]. *)
Fixpoint norm_comps (initial_slashes : nat) (new_comps : list string)
    (comps : list string) : list string :=
  match comps with
  | [] => rev new_comps
  | comp :: rest =>
      if String.eqb comp "" || String.eqb comp "." then
        norm_comps initial_slashes new_comps rest
      else if negb (String.eqb comp "..")
              || (Nat.eqb initial_slashes 0 && bool_decide (new_comps = []))
              || match new_comps with
                 | top :: _ => String.eqb top ".."
                 | [] => false
                 end
      then norm_comps initial_slashes (comp :: new_comps) rest
      else norm_comps initial_slashes (List.tl new_comps) rest
  end.

Definition normpath (path : string) : string :=
  if String.eqb path "" then "."
  else
    let initial_slashes :=
      if Py.startswith "/" path then
        if Py.startswith "//" path && negb (Py.startswith "///" path)
        then 2 else 1
      else 0 in
    let body := Py.join_with "/" (norm_comps initial_slashes [] (Py.split sep path)) in
    let res :=
      match initial_slashes with
      | 0 => body
      | 1 => ("/" ++ body)%string
      | _ => ("//" ++ body)%string
      end in
    if String.eqb res "" then "." else res.

(** [os.path.abspath(p)] in a process whose working directory is [cwd]. *)
Definition abspath (cwd p : string) : string :=
  normpath (if isabs p then p else join cwd p).

End OsPath.

(** ** The machine the code runs on *)

(** The exceptions the modelled code raises or lets through. *)
Inductive exn :=
| VenvError (msg : string)
| TimeoutExpired
| FileNotFoundError
| PermissionError
| JSONDecodeError
| KeyError (key : string)
| TypeError
| OSError (msg : string).

Inductive outcome (A : Type) :=
| Ok (a : A)
| Raise (e : exn).
Arguments Ok {A} a.
Arguments Raise {A} e.

(** What [subprocess.run(cmd, capture_output=True, text=True, timeout=t)]
    does: it returns a completed process or raises. *)
Inductive process :=
| Completed (returncode : Z) (stdout stderr : string)
| Failed (e : exn).

(** A directory as [os.walk] lists it: the names of its non-directory
    entries and its sub-directories.  A sub-directory flagged [true] is a
    symbolic link to a directory: [os.walk(..., followlinks=False)] lists
    it among the directory names and does not walk into it. *)
Inductive tree :=
| Dir (filenames : list string) (subdirs : list (string * bool * tree)).

(** What [json.loads] produces, as far as [list_packages] looks at it. *)
Inductive json :=
| JStr (s : string)
| JOther
| JObj (fields : list (string * json))
| JArr (items : list json).

Record World := {
  cwd : string;                               (* os.getcwd() *)
  tilde : string -> string;                   (* expansion of a path starting with ~ *)
  path_exists : string -> bool;               (* os.path.exists *)
  isdir : string -> bool;                     (* os.path.isdir *)
  isfile : string -> bool;                    (* os.path.isfile *)
  access_x : string -> bool;                  (* os.access(p, os.X_OK) *)
  realpath : string -> string;                (* os.path.realpath *)
  read_text : string -> option string;        (* open(p, "r") and read; None is IOError *)
  tree_at : string -> tree;                   (* the directory tree under a directory *)
  glob : string -> list string;               (* glob.glob *)
  run : list string -> nat -> process;        (* subprocess.run *)
  json_loads : string -> option json;         (* json.loads; None is JSONDecodeError *)
  rmtree_fails : string -> option exn         (* what shutil.rmtree raises, if anything *)
}.

(** The calls with an effect outside the process, in the order made. *)
Inductive effect :=
| Spawn (cmd : list string) (timeout : nat)
| Rmtree (path : string).

(** [os.path.expanduser] *)
Definition expanduser (w : World) (p : string) : string :=
  if Py.startswith "~" p then tilde w p else p.

(** ** Data model *)

Record PythonInstall := {
  pi_path : string;
  pi_version : string;
  pi_source : string
}.

Record VenvInfo := {
  name : string;
  path : string;
  python_version : string;
  python_home : string;
  is_valid : bool;
  source : string
}.

(** The two fields hold whatever values the package listing carries. *)
Record PackageInfo := {
  pkg_name : json;
  pkg_version : json
}.

Definition SKIP_DIRS : gset string :=
  list_to_set [
    "node_modules"; ".git"; "__pycache__"; ".tox"; ".nox";
    ".eggs"; "dist"; "build"; ".mypy_cache"; ".pytest_cache";
    "Library"; "Applications"; ".Trash"; ".cache"; ".npm";
    ".cargo"; ".rustup"; ".local"; ".pyenv"; ".nvm";
    "Pictures"; "Music"; "Movies"; ".docker"
  ].

(** ** Stable sorting, as [list.sort] does it

    [sort_by le] puts [x] before [y] whenever [le x y] fails to hold the
    other way round, and keeps the given order among elements that compare
    equal. *)
Fixpoint insert_by {A} (le : A -> A -> bool) (x : A) (l : list A) : list A :=
  match l with
  | [] => [x]
  | y :: l' => if le x y then x :: l else y :: insert_by le x l'
  end.

Definition sort_by {A} (le : A -> A -> bool) (l : list A) : list A :=
  foldr (insert_by le) [] l.

(** ** Environment Descriptor Builder *)

(** One turn of the loop over the lines of the metadata file. *)
Definition parse_line (data : gmap string string) (line : string)
  : gmap string string :=
  let line := Py.strip line in
  if Py.has_char "=" line then
    let '(key, _, value) := Py.partition "=" line in
    <[Py.strip key := Py.strip value]> data
  else data.

Definition parse_pyvenv_cfg (w : World) (venv_path : string)
  : gmap string string :=
  let cfg_path := OsPath.join venv_path "pyvenv.cfg" in
  if negb (path_exists w cfg_path) then ∅
  else match read_text w cfg_path with
       | Some content => foldl parse_line ∅ (Py.file_lines content)
       | None => ∅
       end.

Definition _build_venv_info (w : World) (dirpath : string) (source : string)
  : option VenvInfo :=
  let cfg := parse_pyvenv_cfg w dirpath in
  if bool_decide (cfg = ∅) then None
  else
    let python_bin := OsPath.join3 dirpath "bin" "python" in
    let is_valid := isfile w python_bin && access_x w python_bin in
    let version :=
      default (default "unknown" (cfg !! "version_info")) (cfg !! "version") in
    let python_home := default "" (cfg !! "home") in
    Some {| name := OsPath.basename dirpath;
            path := OsPath.abspath (cwd w) dirpath;
            python_version := version;
            python_home := python_home;
            is_valid := is_valid;
            source := source |}.

(** ** Environment Discovery Engine *)

(** What [os.walk] hands out at one directory.  The list of directory
    names is the very list the walk goes on to use, so it is recorded as
    the loop body left it. *)
Record yielded := {
  y_dirpath : string;
  y_dirnames : list string;
  y_filenames : list string
}.

(** The loop of [os.walk] over the directory names left by the body:
    each sub-directory still named, unless it is a symbolic link, is walked
    by [walk] under [os.path.join(top, name)]. *)
Definition walk_subdirs {S : Type}
    (walk : string -> tree -> S -> S * list yielded)
    (top : string) (dirnames : list string)
  : list (string * bool * tree) -> S -> S * list yielded :=
  fix go es s :=
    match es with
    | [] => (s, [])
    | (d, is_link, sub) :: es' =>
        if bool_decide (d ∈ dirnames) && negb is_link then
          let '(s', ys1) := walk (OsPath.join top d) sub s in
          let '(s'', ys2) := go es' s' in
          (s'', ys1 ++ ys2)
        else go es' s
    end.

(** [os.walk(top, followlinks=False)] driven by the body of the [for]
    loop: [body dirpath dirnames filenames s] returns the directory names
    as the body leaves them and the new state of the loop.  The walk then
    enters, in listing order, the sub-directories still named. *)
Fixpoint os_walk {S : Type}
    (body : string -> list string -> list string -> S -> list string * S)
    (top : string) (t : tree) (s : S) : S * list yielded :=
  match t with
  | Dir filenames subdirs =>
      let '(dirnames, s1) := body top (map (fun e => e.1.1) subdirs) filenames s in
      let here := {| y_dirpath := top; y_dirnames := dirnames;
                     y_filenames := filenames |} in
      let '(s2, below) := walk_subdirs (os_walk body) top dirnames subdirs s1 in
      (s2, here :: below)
  end.

(** The filter on [dirnames]:
    [d not in SKIP_DIRS and not d.startswith(".") or d in (".venv", ".env")] *)
Definition keep_dir (d : string) : bool :=
  bool_decide (d ∉ SKIP_DIRS) && negb (Py.startswith "." d)
  || bool_decide (d ∈ [".venv"; ".env"]).

Record scan := {
  results : list VenvInfo;
  seen_paths : gset string
}.

(** [dirpath[len(base_dir):].count(os.sep)] *)
Definition depth_of (base_dir dirpath : string) : nat :=
  Py.count OsPath.sep (Py.drop (String.length base_dir) dirpath).

(** The body of the loop over [os.walk(base_dir)]. *)
Definition discover_body (w : World) (base_dir : string) (max_depth : Z)
    (dirpath : string) (dirnames filenames : list string) (st : scan)
  : list string * scan :=
  if (Z.of_nat (depth_of base_dir dirpath) >=? max_depth)%Z then ([], st)
  else
    let dirnames := List.filter keep_dir dirnames in
    if bool_decide ("pyvenv.cfg" ∈ filenames) then
      let real := realpath w dirpath in
      if bool_decide (real ∉ seen_paths st) then
        match _build_venv_info w dirpath "discovered" with
        | Some info =>
            ([], {| results := results st ++ [info];
                    seen_paths := seen_paths st ∪ {[real]} |})
        | None => ([], st)
        end
      else ([], st)
    else (dirnames, st).

(** One turn of the loop over [scan_dirs]. *)
Definition discover_root (w : World) (max_depth : Z) (st : scan)
    (base_dir : string) : scan * list yielded :=
  let base_dir := expanduser w base_dir in
  if negb (isdir w base_dir) then (st, [])
  else os_walk (discover_body w base_dir max_depth) base_dir (tree_at w base_dir) st.

Definition discover_venvs (w : World) (scan_dirs : list string) (max_depth : Z)
  : list VenvInfo :=
  results (foldl (fun st base_dir => (discover_root w max_depth st base_dir).1)
                 {| results := []; seen_paths := ∅ |} scan_dirs).

Definition missing_venv (path : string) : VenvInfo :=
  {| name := OsPath.basename path;
     path := path;
     python_version := "unknown";
     python_home := "";
     is_valid := false;
     source := "managed (missing)" |}.

(** One turn of the loop of [load_managed_venvs]. *)
Definition load_managed_step (w : World) (results : list VenvInfo)
    (path : string) : list VenvInfo :=
  if isdir w path && path_exists w (OsPath.join path "pyvenv.cfg") then
    match _build_venv_info w path "managed" with
    | Some info => results ++ [info]
    | None => results
    end
  else results ++ [missing_venv path].

Definition load_managed_venvs (w : World) (managed_paths : list string)
  : list VenvInfo :=
  foldl (load_managed_step w) [] managed_paths.

(** What one registered path contributes: a turn of the loop started on
    an empty result. *)
Definition managed_entry (w : World) (p : string) : list VenvInfo :=
  load_managed_step w [] p.

(** ** The merge of [_refresh_venvs] *)

(** One turn of either loop of [do_refresh]: [v] is kept unless its
    canonical path was seen. *)
Definition merge_step (w : World) (acc : list VenvInfo * gset string)
    (v : VenvInfo) : list VenvInfo * gset string :=
  let real := realpath w (path v) in
  if bool_decide (real ∉ acc.2) then (acc.1 ++ [v], acc.2 ∪ {[real]})
  else acc.

(** The key of [merged.sort(key=lambda v: v.name.lower())]. *)
Definition name_key (v : VenvInfo) : string := Py.lower (name v).

Definition name_le (a b : VenvInfo) : bool :=
  Py.str_le (name_key a) (name_key b).

Definition merge_venvs (w : World) (managed discovered : list VenvInfo)
  : list VenvInfo :=
  let after_managed := foldl (merge_step w) ([], ∅) managed in
  let merged := (foldl (merge_step w) after_managed discovered).1 in
  sort_by name_le merged.

(** ** Configuration: the managed-path registry *)

Record Config := {
  managed_venvs : list string;
  scan_directories : list string;
  scan_max_depth : Z;
  default_venv_location : string
}.

Definition set_managed (config : Config) (l : list string) : Config :=
  {| managed_venvs := l;
     scan_directories := scan_directories config;
     scan_max_depth := scan_max_depth config;
     default_venv_location := default_venv_location config |}.

Definition add_managed_venv (w : World) (config : Config) (venv_path : string)
  : Config :=
  let path := OsPath.abspath (cwd w) venv_path in
  if bool_decide (path ∉ managed_venvs config)
  then set_managed config (managed_venvs config ++ [path])
  else config.

Definition remove_managed_venv (w : World) (config : Config)
    (venv_path : string) : Config :=
  let path := OsPath.abspath (cwd w) venv_path in
  set_managed config
    (List.filter (fun p => negb (String.eqb p path)) (managed_venvs config)).

(** [do_refresh] of [_refresh_venvs]: load, discover, merge. *)
Definition do_refresh (w : World) (config : Config) : list VenvInfo :=
  let managed := load_managed_venvs w (managed_venvs config) in
  let discovered :=
    discover_venvs w (scan_directories config) (scan_max_depth config) in
  merge_venvs w managed discovered.

(** ** Python Interpreter Locator *)

Definition search_patterns (w : World) : list (string * string) :=
  [ ("/usr/bin/python3", "system");
    ("/opt/homebrew/bin/python3", "homebrew");
    ("/opt/homebrew/bin/python3.*[0-9]", "homebrew");
    ("/usr/local/bin/python3", "homebrew");
    ("/usr/local/bin/python3.*[0-9]", "homebrew");
    ("/Library/Frameworks/Python.framework/Versions/*/bin/python3", "python.org") ]
  ++ (let pyenv_root := expanduser w "~/.pyenv/versions" in
      if isdir w pyenv_root
      then [(OsPath.join pyenv_root "*/bin/python3", "pyenv")]
      else []).

(** The candidate paths of one pattern. *)
Definition pattern_paths (w : World) (pattern : string) : list string :=
  if Py.has_char "*" pattern
     || Py.has_char "." (List.last (Py.split "/" pattern) "")
  then sort_by Py.str_le (glob w pattern)
  else if path_exists w pattern then [pattern] else [].

(** The exceptions the probe swallows. *)
Definition probe_caught (e : exn) : bool :=
  match e with
  | TimeoutExpired | FileNotFoundError | PermissionError => true
  | _ => false
  end.

Record probing := {
  candidates : list PythonInstall;
  seen_realpaths : gset string
}.

(** One turn of the loop over the paths of a pattern. *)
Definition probe (w : World) (source : string) (st : outcome probing)
    (path : string) : outcome probing :=
  match st with
  | Raise e => Raise e
  | Ok s =>
      let real := realpath w path in
      if bool_decide (real ∈ seen_realpaths s) then st
      else if negb (access_x w path) then st
      else
        match run w [path; "--version"] 5 with
        | Completed returncode stdout _ =>
            if (returncode =? 0)%Z then
              let version_str := Py.replace "Python " "" (Py.strip stdout) in
              Ok {| candidates :=
                      candidates s
                      ++ [{| pi_path := path; pi_version := version_str;
                             pi_source := source |}];
                    seen_realpaths := seen_realpaths s ∪ {[real]} |}
            else st
        | Failed e => if probe_caught e then st else Raise e
        end
  end.

(** The candidate paths with their provenance tags, in scan order. *)
Definition scan_order (w : World) : list (string * string) :=
  flat_map (fun ps => map (fun p => (p, ps.2)) (pattern_paths w ps.1))
           (search_patterns w).

(** [_version_tuple]; a tuple of integers is a list. *)
Definition _version_tuple (version_str : string) : list Z :=
  match mapM Py.int (take 3 (Py.split "." version_str)) with
  | Some t => t
  | None => [0; 0; 0]%Z
  end.

(** [a <= b] on tuples of integers. *)
Fixpoint tuple_le (a b : list Z) : bool :=
  match a, b with
  | [], _ => true
  | _ :: _, [] => false
  | x :: a', y :: b' => (x <? y)%Z || (x =? y)%Z && tuple_le a' b'
  end.

(** The order of [candidates.sort(key=..., reverse=True)]. *)
Definition version_ge (p q : PythonInstall) : bool :=
  tuple_le (_version_tuple (pi_version q)) (_version_tuple (pi_version p)).

Definition detect_python_versions (w : World) : outcome (list PythonInstall) :=
  let st :=
    foldl (fun st ps => foldl (probe w ps.2) st (pattern_paths w ps.1))
          (Ok {| candidates := []; seen_realpaths := ∅ |})
          (search_patterns w) in
  match st with
  | Ok s => Ok (sort_by version_ge (candidates s))
  | Raise e => Raise e
  end.

(** ** Environment Lifecycle Manager *)



(** ** Package Operations Layer *)

Definition get_venv_python (venv_path : string) : string :=
  OsPath.join3 venv_path "bin" "python".

(** [p[key]] for a value [p] that [json.loads] returned. *)
Definition json_item (p : json) (key : string) : outcome json :=
  match p with
  | JObj fields =>
      match List.find (fun kv => String.eqb kv.1 key) fields with
      | Some kv => Ok kv.2
      | None => Raise (KeyError key)
      end
  | _ => Raise TypeError
  end.

(** [[PackageInfo(p["name"], p["version"]) for p in packages]] *)
Fixpoint package_infos (items : list json) : outcome (list PackageInfo) :=
  match items with
  | [] => Ok []
  | p :: rest =>
      match json_item p "name" with
      | Raise e => Raise e
      | Ok n =>
          match json_item p "version" with
          | Raise e => Raise e
          | Ok v =>
              match package_infos rest with
              | Raise e => Raise e
              | Ok l => Ok ({| pkg_name := n; pkg_version := v |} :: l)
              end
          end
      end
  end.

(** Iterating the value [json.loads] returned. *)
Definition json_iter (packages : json) : outcome (list json) :=
  match packages with
  | JArr items => Ok items
  | JObj fields => Ok (map (fun kv => JStr kv.1) fields)
  | JStr s => Ok (map (fun c => JStr (String c EmptyString)) (list_ascii_of_string s))
  | JOther => Raise TypeError
  end.

(** The exceptions [list_packages] swallows. *)
Definition list_caught (e : exn) : bool :=
  match e with
  | TimeoutExpired | JSONDecodeError | KeyError _ => true
  | _ => false
  end.

Definition list_packages (w : World) (venv_path : string)
  : outcome (list PackageInfo) * list effect :=
  let venv_python := get_venv_python venv_path in
  if negb (isfile w venv_python) then (Ok [], [])
  else
    let cmd := [venv_python; "-m"; "pip"; "list"; "--format=json"] in
    let body : outcome (list PackageInfo) :=
      match run w cmd 30 with
      | Failed e => Raise e
      | Completed returncode stdout _ =>
          if negb (returncode =? 0)%Z then Ok []
          else
            match json_loads w stdout with
            | None => Raise JSONDecodeError
            | Some packages =>
                match json_iter packages with
                | Raise e => Raise e
                | Ok items => package_infos items
                end
            end
      end in
    (match body with
     | Raise e => if list_caught e then Ok [] else Raise e
     | r => r
     end, [Spawn cmd 30]).

Definition install_package (w : World) (venv_path package_spec : string)
  : outcome string * list effect :=
  let venv_python := get_venv_python venv_path in
  let cmd := [venv_python; "-m"; "pip"; "install"; package_spec] in
  (match run w cmd 300 with
   | Failed e => Raise e
   | Completed returncode stdout stderr =>
       let output := (stdout ++ stderr)%string in
       if negb (returncode =? 0)%Z
       then Raise (VenvError ("pip install failed:" ++ String "010" output))
       else Ok output
   end, [Spawn cmd 300]).

Definition remove_package (w : World) (venv_path package_name : string)
  : outcome string * list effect :=
  let venv_python := get_venv_python venv_path in
  let cmd := [venv_python; "-m"; "pip"; "uninstall"; "-y"; package_name] in
  (match run w cmd 60 with
   | Failed e => Raise e
   | Completed returncode stdout stderr =>
       let output := (stdout ++ stderr)%string in
       if negb (returncode =? 0)%Z
       then Raise (VenvError ("pip uninstall failed:" ++ String "010" output))
       else Ok output
   end, [Spawn cmd 60]).

Definition upgrade_package (w : World) (venv_path package_name : string)
  : outcome string * list effect :=
  let venv_python := get_venv_python venv_path in
  let cmd := [venv_python; "-m"; "pip"; "install"; "--upgrade"; package_name] in
  (match run w cmd 300 with
   | Failed e => Raise e
   | Completed returncode stdout stderr =>
       let output := (stdout ++ stderr)%string in
       if negb (returncode =? 0)%Z
       then Raise (VenvError ("pip upgrade failed:" ++ String "010" output))
       else Ok output
   end, [Spawn cmd 300]).

(** ** Background Task Supervisor *)

Module Workers.

(** What the operation handed to a task does when called. *)
Inductive returned (R : Type) :=
| Returns (result : R)
| Raises (e : exn).
Arguments Returns {R} result.
Arguments Raises {R} e.

(** The two signals of [WorkerSignals]. *)
Inductive signal (R : Type) :=
| finished (result : R)
| error (e : exn).
Arguments finished {R} result.
Arguments error {R} e.

(** [BackgroundTask.run] *)
Definition BackgroundTask_run {R} (func : returned R) : signal R :=
  match func with
  | Returns result => finished result
  | Raises e => error e
  end.

(** The text handed to the status callback. *)
Inductive status_text :=
| Text (s : string)
| ErrorText (e : exn).                       (* f"Error: {error}" *)

(** The calls the supervisor makes into its caller, as they happen. *)
Inductive call (R : Type) :=
| status_callback (message : status_text) (busy : bool)
| on_success (task : nat) (result : R)
| on_error (task : nat) (e : exn).
Arguments status_callback {R} message busy.
Arguments on_success {R} task result.
Arguments on_error {R} task e.

(** A [TaskManager]: the registry [_tasks] (task objects are numbered in
    order of creation), whether a status callback was given, and the calls
    made so far. *)
Record TaskManager (R : Type) := {
  _tasks : gmap string nat;
  has_status_callback : bool;
  created : nat;
  calls : list (call R)
}.
Arguments _tasks {R} t.
Arguments has_status_callback {R} t.
Arguments created {R} t.
Arguments calls {R} t.

Definition init {R} (status : bool) : TaskManager R :=
  {| _tasks := ∅; has_status_callback := status; created := 0; calls := [] |}.

(** The part of [TaskManager.run] executed by the caller: the busy
    notice, the new task, its registration.  Returns the task object. *)
Definition submit {R} (tm : TaskManager R) (task_id : string)
    (status_msg : option string) : TaskManager R * nat :=
  let notice :=
    match status_msg with
    | Some m =>
        if negb (String.eqb m "") && has_status_callback tm
        then [status_callback (Text m) true] else []
    | None => []
    end in
  let task := created tm in
  ({| _tasks := <[task_id := task]> (_tasks tm);
      has_status_callback := has_status_callback tm;
      created := S task;
      calls := calls tm ++ notice |}, task).

(** The closure [on_finished] of [TaskManager.run]. *)
Definition on_finished {R} (tm : TaskManager R) (task_id : string) (task : nat)
    (result : R) : TaskManager R :=
  {| _tasks := delete task_id (_tasks tm);
     has_status_callback := has_status_callback tm;
     created := created tm;
     calls := calls tm
              ++ (if has_status_callback tm
                  then [status_callback (Text "Ready") false] else [])
              ++ [on_success task result] |}.

(** The closure [on_task_error] of [TaskManager.run]; [with_on_error]
    tells whether the caller passed an [on_error]. *)
Definition on_task_error {R} (tm : TaskManager R) (task_id : string)
    (task : nat) (with_on_error : bool) (e : exn) : TaskManager R :=
  {| _tasks := delete task_id (_tasks tm);
     has_status_callback := has_status_callback tm;
     created := created tm;
     calls := calls tm
              ++ (if has_status_callback tm
                  then [status_callback (ErrorText e) false] else [])
              ++ (if with_on_error then [on_error task e] else []) |}.

(** Delivery of the signal a task emitted to the closure connected to it. *)
Definition deliver {R} (tm : TaskManager R) (task_id : string) (task : nat)
    (with_on_error : bool) (s : signal R) : TaskManager R :=
  match s with
  | finished result => on_finished tm task_id task result
  | error e => on_task_error tm task_id task with_on_error e
  end.

(** One unit of work from submission to the delivery of its signal. *)
Definition run {R} (tm : TaskManager R) (task_id : string) (func : returned R)
    (with_on_error : bool) (status_msg : option string) : TaskManager R :=
  let '(tm1, task) := submit tm task_id status_msg in
  deliver tm1 task_id task with_on_error (BackgroundTask_run func).

(** The terminal callbacks among the calls, for one task. *)
Definition successes {R} (task : nat) (cs : list (call R)) : nat :=
  List.length (List.filter (fun c => match c with
                                     | on_success t _ => Nat.eqb t task
                                     | _ => false end) cs).

Definition errors {R} (task : nat) (cs : list (call R)) : nat :=
  List.length (List.filter (fun c => match c with
                                     | on_error t _ => Nat.eqb t task
                                     | _ => false end) cs).

Definition idle_notices {R} (cs : list (call R)) : nat :=
  List.length (List.filter (fun c => match c with
                                     | status_callback _ false => true
                                     | _ => false end) cs).

End Workers.

(** ** Concrete machines used to run the model *)

Definition nl : string := String "010" EmptyString.

(** A machine with nothing on it. *)
Definition blank : World :=
  {| cwd := "/";
     tilde := fun p => ("/home/u" ++ Py.drop 1 p)%string;
     path_exists := fun _ => false;
     isdir := fun _ => false;
     isfile := fun _ => false;
     access_x := fun _ => false;
     realpath := fun p => p;
     read_text := fun _ => None;
     tree_at := fun _ => Dir [] [];
     glob := fun _ => [];
     run := fun _ _ => Failed FileNotFoundError;
     json_loads := fun _ => None;
     rmtree_fails := fun _ => None |}.

(** [with_files files dirs w]: [w] with the regular text files [files]
    (path and content) and the directories [dirs] added. *)
Definition with_files (files : list (string * string)) (dirs : list string)
    (w : World) : World :=
  let file_at p := List.find (fun f => String.eqb f.1 p) files in
  let dir_at p := existsb (String.eqb p) dirs in
  {| cwd := cwd w;
     tilde := tilde w;
     path_exists := fun p => bool_decide (is_Some (file_at p)) || dir_at p || path_exists w p;
     isdir := fun p => dir_at p || isdir w p;
     isfile := fun p => bool_decide (is_Some (file_at p)) || isfile w p;
     access_x := access_x w;
     realpath := realpath w;
     read_text := fun p =>
       match file_at p with Some f => Some f.2 | None => read_text w p end;
     tree_at := tree_at w;
     glob := glob w;
     run := run w;
     json_loads := json_loads w;
     rmtree_fails := rmtree_fails w |}.

(** The metadata file of the scenario. *)
Definition example_cfg : string :=
  ("version = 3.11.4" ++ nl ++ "home = /usr/local" ++ nl ++ "included = true")%string.

Definition cfg_world : World :=
  with_files [("/v/pyvenv.cfg", example_cfg)] ["/v"] blank.


(** [with_links table w]: [w] where each path of [table] is a symbolic
    link whose canonical path is given. *)
Definition with_links (table : list (string * string)) (w : World) : World :=
  {| cwd := cwd w;
     tilde := tilde w;
     path_exists := path_exists w;
     isdir := isdir w;
     isfile := isfile w;
     access_x := access_x w;
     realpath := fun p =>
       match List.find (fun l => String.eqb l.1 p) table with
       | Some l => l.2
       | None => realpath w p
       end;
     read_text := read_text w;
     tree_at := tree_at w;
     glob := glob w;
     run := run w;
     json_loads := json_loads w;
     rmtree_fails := rmtree_fails w |}.

(** An environment at [/real/env], reachable through the link
    [/link/env] too. *)
Definition link_world : World :=
  with_links [("/link/env", "/real/env")]
    (with_files [("/real/env/pyvenv.cfg", "home = /usr/bin");
                 ("/link/env/pyvenv.cfg", "home = /usr/bin")]
                ["/real"; "/real/env"; "/link/env"] blank).

Definition link_config : Config :=
  {| managed_venvs := ["/real/env"];
     scan_directories := [];
     scan_max_depth := 3;
     default_venv_location := "/home/u/Envs" |}.

(** "Keep only the first descriptor seen per canonical path", in the
    words of the merge contract: an element stays, and the later elements
    with its key go. *)
Fixpoint first_per_key {A} (key : A -> string) (l : list A) : list A :=
  match l with
  | [] => []
  | x :: l' =>
      x :: List.filter (fun y => negb (String.eqb (key y) (key x)))
                       (first_per_key key l')
  end.

(** The canonical path of a descriptor. *)
Definition canonical (w : World) (v : VenvInfo) : string := realpath w (path v).

Definition venv (n p src : string) : VenvInfo :=
  {| name := n; path := p; python_version := "3.12.1"; python_home := "";
     is_valid := true; source := src |}.

(** A managed and a discovered list that meet at [/real/env]. *)
Definition managed_list : list VenvInfo :=
  [venv "env" "/real/env" "managed"; venv "Zeta" "/envs/Zeta" "managed"].

Definition discovered_list : list VenvInfo :=
  [venv "alpha" "/home/u/alpha" "discovered"; venv "env" "/link/env" "discovered"].

(** The canonical path of an interpreter. *)
Definition target (w : World) (i : PythonInstall) : string :=
  realpath w (pi_path i).

(** The candidates that pass verification: executable, and answering
    [--version] with exit code 0. *)
Definition verified (w : World) (c : string * string) : option PythonInstall :=
  if access_x w c.1 then
    match run w [c.1; "--version"] 5 with
    | Completed returncode stdout _ =>
        if (returncode =? 0)%Z
        then Some {| pi_path := c.1;
                     pi_version := Py.replace "Python " "" (Py.strip stdout);
                     pi_source := c.2 |}
        else None
    | Failed _ => None
    end
  else None.

Definition verified_installs (w : World) : list PythonInstall :=
  omap (verified w) (scan_order w).

(** A machine with the system interpreter and a Homebrew interpreter that
    two patterns reach: [python3] is a link to [python3.12]. *)
Definition detect_world : World :=
  let homebrew := ["/opt/homebrew/bin/python3"; "/opt/homebrew/bin/python3.12"] in
  {| cwd := "/";
     tilde := fun p => ("/Users/u" ++ Py.drop 1 p)%string;
     path_exists := fun p => existsb (String.eqb p) ("/usr/bin/python3" :: homebrew);
     isdir := fun _ => false;
     isfile := fun p => existsb (String.eqb p) ("/usr/bin/python3" :: homebrew);
     access_x := fun p => existsb (String.eqb p) ("/usr/bin/python3" :: homebrew);
     realpath := fun p =>
       if existsb (String.eqb p) homebrew
       then "/opt/homebrew/Cellar/python@3.12/3.12.1/bin/python3.12" else p;
     read_text := fun _ => None;
     tree_at := fun _ => Dir [] [];
     glob := fun pattern =>
       if String.eqb pattern "/opt/homebrew/bin/python3.*[0-9]"
       then ["/opt/homebrew/bin/python3.12"] else [];
     run := fun cmd _ =>
       match cmd with
       | [p; _] =>
           if String.eqb p "/usr/bin/python3"
           then Completed 0 ("Python 3.9.6" ++ nl)%string ""
           else if existsb (String.eqb p) homebrew
                then Completed 0 ("Python 3.12.1" ++ nl)%string ""
                else Failed FileNotFoundError
       | _ => Failed FileNotFoundError
       end;
     json_loads := fun _ => None;
     rmtree_fails := fun _ => None |}.

(** One turn of the inner loop of [detect_python_versions], on a candidate
    with its provenance tag. *)
Definition probe_candidate (w : World) (st : outcome probing)
    (c : string * string) : outcome probing := probe w c.2 st c.1.

Definition empty_scan : scan := {| results := []; seen_paths := ∅ |}.

(** The directories [os.walk] hands out under one scan root. *)
Definition walked (w : World) (max_depth : Z) (base_dir : string)
  : list yielded :=
  (discover_root w max_depth empty_scan base_dir).2.

(** [y] is handed out for a sub-directory named in the list of directory
    names of some directory of [ys]. *)
Definition entered_from (ys : list yielded) (y : yielded) : Prop :=
  exists p d, p ∈ ys /\ d ∈ y_dirnames p
              /\ y_dirpath y = OsPath.join (y_dirpath p) d.

(** The shape of what a walk hands out: first the directory it started
    at, then directories entered from directories handed out. *)
Definition walk_shape (top : string) (ys : list yielded) : Prop :=
  exists y0 rest, ys = y0 :: rest /\ y_dirpath y0 = top
                  /\ forall y, y ∈ rest -> entered_from ys y.

(** The directories under [base] that the scan is bound to walk: the
    root, and below a directory that is within the depth bound and is no
    environment itself, every sub-directory that is no symbolic link and
    whose name passes the filter. *)
Inductive reaches (w : World) (base : string) (max_depth : Z)
  : string -> tree -> Prop :=
| reaches_root : reaches w base max_depth base (tree_at w base)
| reaches_sub top filenames subdirs d sub :
    reaches w base max_depth top (Dir filenames subdirs) ->
    (Z.of_nat (depth_of base top) < max_depth)%Z ->
    "pyvenv.cfg" ∉ filenames ->
    (d, false, sub) ∈ subdirs ->
    keep_dir d = true ->
    reaches w base max_depth (OsPath.join top d) sub.

(** The descriptor [info] was built at the directory [y]: the directory
    holds a metadata file and lies within the depth bound under [base]. *)
Definition found_at (w : World) (base : string) (max_depth : Z)
    (y : yielded) (info : VenvInfo) : Prop :=
  _build_venv_info w (y_dirpath y) "discovered" = Some info
  /\ (Z.of_nat (depth_of base (y_dirpath y)) < max_depth)%Z
  /\ "pyvenv.cfg" ∈ y_filenames y.

(** A home directory with a project environment in [.venv], an
    environment hidden under [.git], and one four levels down. *)
Definition home_tree : tree :=
  Dir ["notes.txt"]
    [ ("proj", false,
       Dir ["setup.py"]
         [ (".venv", false, Dir ["pyvenv.cfg"] [("lib", false, Dir [] [])]);
           ("node_modules", false, Dir [] [("env", false, Dir ["pyvenv.cfg"] [])]) ]);
      (".git", false, Dir [] [("env", false, Dir ["pyvenv.cfg"] [])]);
      ("a", false,
       Dir [] [("b", false, Dir [] [("c", false, Dir ["pyvenv.cfg"] [])])]) ].

Definition with_tree (root : string) (t : tree) (w : World) : World :=
  {| cwd := cwd w;
     tilde := tilde w;
     path_exists := path_exists w;
     isdir := isdir w;
     isfile := isfile w;
     access_x := access_x w;
     realpath := realpath w;
     read_text := read_text w;
     tree_at := fun p => if String.eqb p root then t else tree_at w p;
     glob := glob w;
     run := run w;
     json_loads := json_loads w;
     rmtree_fails := rmtree_fails w |}.

Definition home_world : World :=
  with_tree "/home/u" home_tree
    (with_files
       [ ("/home/u/proj/.venv/pyvenv.cfg", ("version = 3.12.1" ++ nl)%string);
         ("/home/u/proj/node_modules/env/pyvenv.cfg", ("version = 3.8.0" ++ nl)%string);
         ("/home/u/.git/env/pyvenv.cfg", ("version = 3.8.0" ++ nl)%string);
         ("/home/u/a/b/c/pyvenv.cfg", ("version = 3.8.0" ++ nl)%string) ]
       [ "/home/u"; "/home/u/proj"; "/home/u/proj/.venv"; "/home/u/proj/.venv/lib";
         "/home/u/proj/node_modules"; "/home/u/proj/node_modules/env";
         "/home/u/.git"; "/home/u/.git/env";
         "/home/u/a"; "/home/u/a/b"; "/home/u/a/b/c" ]
       blank).

(** What the loop body leaves of the directory names: nothing at the
    depth bound, nothing at an environment, and kept names only. *)
Definition pruned (base : string) (max_depth : Z) (y : yielded) : Prop :=
  ((max_depth <= Z.of_nat (depth_of base (y_dirpath y)))%Z -> y_dirnames y = [])
  /\ ("pyvenv.cfg" ∈ y_filenames y -> y_dirnames y = [])
  /\ (forall d, d ∈ y_dirnames y -> keep_dir d = true).

(** Every canonical path seen is that of a directory whose descriptor is
    among the results. *)
Definition seen_justified (w : World) (s : scan) : Prop :=
  forall r, r ∈ seen_paths s ->
    exists top info, _build_venv_info w top "discovered" = Some info
                     /\ realpath w top = r /\ info ∈ results s.

(** The results were built at directories with pairwise different
    canonical paths, all of them seen. *)
Definition distinct_dirs (w : World) (s : scan) : Prop :=
  exists ds,
    Forall2 (fun d info => _build_venv_info w d "discovered" = Some info)
            ds (results s)
    /\ NoDup (map (realpath w) ds)
    /\ forall d, d ∈ ds -> realpath w d ∈ seen_paths s.

(** Keys and values as [parse_pyvenv_cfg] stores them: stripped, and no
    ['='] in a key. *)
Definition trimmed_entries (data : gmap string string) : Prop :=
  forall k v, data !! k = Some v ->
    Py.strip k = k /\ Py.strip v = v /\ Py.has_char "=" k = false.

(** ** Operations that see the machine change

    [after w e] is the machine as one effect [e] leaves it; the bulk
    operations and the creation of an environment look at the machine
    again after a command has run. *)

(** [do_remove] of [_remove_package]: one uninstall per name, in turn. *)
Fixpoint do_remove (after : World -> effect -> World) (w : World)
    (venv_path : string) (names : list string) : outcome bool * list effect :=
  match names with
  | [] => (Ok true, [])
  | name :: rest =>
      let '(r, t) := remove_package w venv_path name in
      match r with
      | Raise e => (Raise e, t)
      | Ok _ =>
          let '(r', t') := do_remove after (foldl after w t) venv_path rest in
          (r', t ++ t')
      end
  end.


Definition uninstall_of (venv_path name : string) : effect :=
  Spawn [get_venv_python venv_path; "-m"; "pip"; "uninstall"; "-y"; name] 60.


(** The command line of [create_venv]. *)
Definition create_cmd (path python_path : string)
    (with_pip system_site_packages : bool) : list string :=
  [python_path; "-m"; "venv"; path]
  ++ (if negb with_pip then ["--without-pip"] else [])
  ++ (if system_site_packages then ["--system-site-packages"] else []).

Definition create_venv (after : World -> effect -> World) (w : World)
    (path python_path : string) (with_pip system_site_packages : bool)
  : outcome VenvInfo * list effect :=
  let cmd := create_cmd path python_path with_pip system_site_packages in
  (match run w cmd 120 with
   | Failed e => Raise e
   | Completed returncode _ stderr =>
       if negb (returncode =? 0)%Z
       then Raise (VenvError ("Failed to create venv:" ++ String "010" stderr))
       else
         match _build_venv_info (after w (Spawn cmd 120)) path "managed" with
         | Some info => Ok info
         | None => Raise (VenvError "Venv created but pyvenv.cfg not found")
         end
   end, [Spawn cmd 120]).

(** The output of [pip list --format=json] with one package. *)
Definition quote : string := String "034" EmptyString.

Definition pip_listing : string :=
  ("[{" ++ quote ++ "name" ++ quote ++ ": " ++ quote ++ "pip" ++ quote ++ ", "
   ++ quote ++ "version" ++ quote ++ ": " ++ quote ++ "24.0" ++ quote ++ "}]")%string.

(** A machine with an environment at [/v] whose pip lists one package,
    uninstalls [a] and fails to uninstall [b]; its interpreter at
    [/usr/bin/python3] creates environments. *)
Definition pip_world : World :=
  {| cwd := "/";
     tilde := fun p => ("/home/u" ++ Py.drop 1 p)%string;
     path_exists := fun p => String.eqb p "/v/bin/python";
     isdir := fun _ => false;
     isfile := fun p => String.eqb p "/v/bin/python";
     access_x := fun p => String.eqb p "/v/bin/python";
     realpath := fun p => p;
     read_text := fun _ => None;
     tree_at := fun _ => Dir [] [];
     glob := fun _ => [];
     run := fun cmd _ =>
       if bool_decide (cmd = ["/v/bin/python"; "-m"; "pip"; "list"; "--format=json"])
       then Completed 0 pip_listing ""
       else if bool_decide (cmd = ["/v/bin/python"; "-m"; "pip"; "uninstall"; "-y"; "a"])
       then Completed 0 "Successfully uninstalled a" ""
       else if bool_decide (cmd = ["/v/bin/python"; "-m"; "pip"; "uninstall"; "-y"; "b"])
       then Completed 1 "" "WARNING: Skipping b as it is not installed."
       else if bool_decide (cmd = ["/usr/bin/python3"; "-m"; "venv"; "/envs/new"])
       then Completed 0 "" ""
       else Failed FileNotFoundError;
     json_loads := fun s =>
       if String.eqb s pip_listing
       then Some (JArr [JObj [("name", JStr "pip"); ("version", JStr "24.0")]])
       else None;
     rmtree_fails := fun _ => None |}.

(** The machine after a command: creating [/envs/new] leaves the
    directory with its metadata file, other commands leave no trace the
    model looks at. *)
Definition pip_after (w : World) (e : effect) : World :=
  match e with
  | Spawn ["/usr/bin/python3"; "-m"; "venv"; "/envs/new"] _ =>
      with_files [("/envs/new/pyvenv.cfg",
                   ("home = /usr/bin" ++ nl ++ "version = 3.12.1" ++ nl)%string)]
                 ["/envs/new"] w
  | _ => w
  end.

(** ** The supervisor's queries, and the lists of the main window *)



(** [sub in s] on [str]. *)
Fixpoint contains (sub s : string) : bool :=
  String.prefix sub s
  || match s with
     | EmptyString => false
     | String _ s' => contains sub s'
     end.

(** A row of the list of environments: its label, the path kept as item
    data, and whether it is greyed out. *)
Record row := {
  row_label : string;
  row_data : string;
  row_grey : bool
}.

(** [_populate_venv_list]; [text] is the text of the filter field. *)
Definition _populate_venv_list (text : string) (all_venvs : list VenvInfo)
  : list row :=
  let filter_text := Py.lower text in
  flat_map
    (fun v =>
       if negb (String.eqb filter_text "")
          && negb (contains filter_text (Py.lower (name v)))
       then []
       else [{| row_label := (name v ++ "  (" ++ python_version v ++ ")")%string;
                row_data := path v;
                row_grey := negb (is_valid v) |}])
    all_venvs.

(** [_get_filtered_venvs] *)
Definition _get_filtered_venvs (text : string) (all_venvs : list VenvInfo)
  : list VenvInfo :=
  let filter_text := Py.lower text in
  List.filter
    (fun v => String.eqb filter_text ""
              || contains filter_text (Py.lower (name v)))
    all_venvs.

(** [_on_venv_selected], as far as the selection goes: the new value of
    [selected_venv]. *)
Definition _on_venv_selected (text : string) (all_venvs : list VenvInfo)
    (selected_venv : option VenvInfo) (row : Z) : option VenvInfo :=
  if (row <? 0)%Z then None
  else
    let filtered := _get_filtered_venvs text all_venvs in
    if (row >=? Z.of_nat (List.length filtered))%Z then selected_venv
    else filtered !! Z.to_nat row.

(** * Properties *)

Example strip_ex : Py.strip "  version = 3.11.4 " = "version = 3.11.4".
Proof. reflexivity. Qed.

Example partition_ex : Py.partition "=" "a = b=c" = ("a ", "=", " b=c").
Proof. reflexivity. Qed.

Example split_ex : Py.split "." "3.11.4" = ["3"; "11"; "4"].
Proof. reflexivity. Qed.

Example replace_ex : Py.replace "Python " "" "Python 3.12.1" = "3.12.1".
Proof. reflexivity. Qed.

Example int_ex : Py.int " 1_0 " = Some 10%Z /\ Py.int "0rc1" = None /\ Py.int "" = None.
Proof. repeat split. Qed.

Example file_lines_ex :
  Py.file_lines ("a" ++ String "010" "b" ++ String "010" "")%string
  = [("a" ++ String "010" "")%string; ("b" ++ String "010" "")%string].
Proof. reflexivity. Qed.

Example join_ex :
  OsPath.join "/v" "pyvenv.cfg" = "/v/pyvenv.cfg" /\ OsPath.join "/v/" "x" = "/v/x"
  /\ OsPath.join "" "x" = "x" /\ OsPath.join "/v" "/abs" = "/abs".
Proof. repeat split. Qed.

Example normpath_ex :
  OsPath.normpath "/a//b/./c/../d/" = "/a/b/d" /\ OsPath.normpath "a/../.." = ".."
  /\ OsPath.normpath "//x" = "//x" /\ OsPath.normpath "///x" = "/x"
  /\ OsPath.normpath "/.." = "/".
Proof. repeat split. Qed.

Example basename_ex :
  OsPath.basename "/a/b" = "b" /\ OsPath.basename "/a/b/" = "" /\ OsPath.basename "x" = "x".
Proof. repeat split. Qed.

Example int_more :
  Py.int "+3" = Some 3%Z /\ Py.int "-4" = Some (-4)%Z /\ Py.int "1__2" = None
  /\ Py.int "_1" = None /\ Py.int "1_" = None /\ Py.int "+" = None
  /\ Py.int " + 3" = None /\ Py.int ("12" ++ nl)%string = Some 12%Z.
Proof. repeat split. Qed.

Example normpath_more :
  OsPath.normpath "" = "." /\ OsPath.normpath "./" = "."
  /\ OsPath.normpath "a/b/../../.." = "..".
Proof. repeat split. Qed.

Example split_replace_more :
  Py.split "/" "" = [""] /\ Py.split "/" "a//b/" = ["a"; ""; "b"; ""]
  /\ Py.replace "aa" "b" "aaa" = "ba"
  /\ Py.replace "Python " "" "Python Python 3" = "3"
  /\ Py.partition "=" "abc" = ("abc", "", "").
Proof. repeat split. Qed.

Example version_tuple_ex :
  _version_tuple "3.11.4" = [3; 11; 4]%Z /\ _version_tuple "3.13.0rc1" = [0; 0; 0]%Z
  /\ _version_tuple "3.11" = [3; 11]%Z /\ _version_tuple "3.12.1.5" = [3; 12; 1]%Z
  /\ tuple_le [3; 11]%Z [3; 11; 0]%Z = true /\ tuple_le [3]%Z [2; 9]%Z = false.
Proof. repeat split. Qed.

Example sort_by_ex :
  sort_by Py.str_le ["b"; "B"; "a"; "_"] = ["B"; "_"; "a"; "b"]
  /\ Py.lower "ZeTa" = "zeta".
Proof. repeat split. Qed.

Example keep_dir_ex :
  keep_dir ".git" = false /\ keep_dir "node_modules" = false
  /\ keep_dir ".hidden" = false /\ keep_dir ".venv" = true
  /\ keep_dir ".env" = true /\ keep_dir "src" = true.
Proof. vm_compute. repeat split. Qed.

Example parse_example :
  parse_pyvenv_cfg cfg_world "/v" !! "included" = Some "true".
Proof. vm_compute. reflexivity. Qed.

(** ** Descriptor Builder: the metadata file *)

Section Metadata.

Lemma has_char_app c a b :
  Py.has_char c (a ++ b)%string = Py.has_char c a || Py.has_char c b.
Proof.
  induction a as [|d a IH]; simpl; [reflexivity|].
  rewrite IH. apply orb_assoc.
Qed.

(** [partition] cuts at the first separator. *)
Lemma partition_first c k v :
  Py.has_char c k = false ->
  Py.partition c (k ++ String c v)%string = (k, String c EmptyString, v).
Proof.
  induction k as [|d k IH]; simpl; intros Hk.
  - rewrite Ascii.eqb_refl. reflexivity.
  - apply orb_false_iff in Hk as [Hd Hk].
    rewrite Hd, (IH Hk). reflexivity.
Qed.

Lemma parse_line_without_eq data line :
  Py.has_char "=" (Py.strip line) = false -> parse_line data line = data.
Proof. unfold parse_line. intros ->. reflexivity. Qed.

Lemma parse_line_with_eq data line k v :
  Py.strip line = (k ++ "=" ++ v)%string ->
  Py.has_char "=" k = false ->
  parse_line data line = <[Py.strip k := Py.strip v]> data.
Proof.
  intros Hline Hk. unfold parse_line. rewrite Hline.
  change ("=" ++ v)%string with (String "=" v).
  rewrite has_char_app. simpl. rewrite orb_true_r.
  rewrite (partition_first "=" k v Hk). reflexivity.
Qed.

Lemma build_none_iff w dirpath source :
  _build_venv_info w dirpath source = None <-> parse_pyvenv_cfg w dirpath = ∅.
Proof.
  unfold _build_venv_info. case_bool_decide; split; congruence.
Qed.

Lemma build_fields w dirpath src info :
  _build_venv_info w dirpath src = Some info ->
  let cfg := parse_pyvenv_cfg w dirpath in
  python_version info
    = match cfg !! "version" with
      | Some v => v
      | None => match cfg !! "version_info" with
                | Some v => v
                | None => "unknown"
                end
      end
  /\ python_home info = match cfg !! "home" with Some h => h | None => "" end
  /\ name info = OsPath.basename dirpath
  /\ path info = OsPath.abspath (cwd w) dirpath
  /\ source info = src.
Proof.
  unfold _build_venv_info. case_bool_decide; [discriminate|].
  intros [= <-]. simpl.
  destruct (parse_pyvenv_cfg w dirpath !! "version");
    destruct (parse_pyvenv_cfg w dirpath !! "version_info");
    destruct (parse_pyvenv_cfg w dirpath !! "home"); auto.
Qed.

End Metadata.

(** C7 (as the code has it).  The metadata file is read line by line;
    a stripped line without ['='] changes nothing, a stripped line
    [k=v] cut at its first ['='] stores [strip k -> strip v]; the builder
    answers absent exactly when no pair was stored; version is the
    [version] key, else the [version_info] key, else ["unknown"]; home is
    the [home] key, else empty.  On the scenario's three lines the parser
    stores the three keys [version], [home] and [included], and the
    descriptor has version ["3.11.4"] and home ["/usr/local"]. *)
Theorem describe_metadata (w : World) (dirpath src : string) :
  let cfg_path := OsPath.join dirpath "pyvenv.cfg" in
  let cfg := parse_pyvenv_cfg w dirpath in
  (forall content,
      path_exists w cfg_path = true -> read_text w cfg_path = Some content ->
      cfg = foldl parse_line ∅ (Py.file_lines content))
  /\ (forall data line,
         Py.has_char "=" (Py.strip line) = false -> parse_line data line = data)
  /\ (forall data line k v,
         Py.strip line = (k ++ "=" ++ v)%string -> Py.has_char "=" k = false ->
         parse_line data line = <[Py.strip k := Py.strip v]> data)
  /\ (_build_venv_info w dirpath src = None <-> cfg = ∅)
  /\ (forall info,
         _build_venv_info w dirpath src = Some info ->
         python_version info
           = match cfg !! "version" with
             | Some v => v
             | None => match cfg !! "version_info" with
                       | Some v => v
                       | None => "unknown"
                       end
             end
         /\ python_home info
            = match cfg !! "home" with Some h => h | None => "" end)
  /\ (path_exists w cfg_path = true -> read_text w cfg_path = Some example_cfg ->
      cfg = {[ "version" := "3.11.4"; "home" := "/usr/local";
               "included" := "true" ]}
      /\ exists info,
           _build_venv_info w dirpath src = Some info
           /\ python_version info = "3.11.4"
           /\ python_home info = "/usr/local").
Proof.
  intros cfg_path cfg.
  assert (Hread : forall content,
             path_exists w cfg_path = true -> read_text w cfg_path = Some content ->
             cfg = foldl parse_line ∅ (Py.file_lines content)).
  { intros content He Hr. subst cfg. unfold parse_pyvenv_cfg.
    fold cfg_path. rewrite He, Hr. reflexivity. }
  split; [exact Hread|].
  split; [exact parse_line_without_eq|].
  split; [exact parse_line_with_eq|].
  split; [apply build_none_iff|].
  split.
  - intros info Hb. destruct (build_fields _ _ _ _ Hb) as (Hv & Hh & _).
    split; assumption.
  - intros He Hr.
    assert (Hcfg : cfg = {[ "version" := "3.11.4"; "home" := "/usr/local";
                            "included" := "true" ]}).
    { rewrite (Hread _ He Hr). vm_compute. reflexivity. }
    split; [exact Hcfg|].
    destruct (_build_venv_info w dirpath src) as [info|] eqn:Hb.
    + exists info. destruct (build_fields _ _ _ _ Hb) as (Hv & Hh & _).
      fold cfg in Hv, Hh. rewrite Hcfg in Hv, Hh.
      split; [reflexivity|]. split; [exact Hv | exact Hh].
    + apply build_none_iff in Hb. fold cfg in Hb. rewrite Hcfg in Hb.
      exfalso. apply (f_equal (fun m : gmap string string => m !! "home")) in Hb.
      vm_compute in Hb. discriminate.
Qed.

(** The scenario run on a machine that holds the file. *)
Lemma describe_metadata_witness :
  parse_pyvenv_cfg cfg_world "/v"
  = {[ "version" := "3.11.4"; "home" := "/usr/local"; "included" := "true" ]}
  /\ exists info,
       _build_venv_info cfg_world "/v" "discovered" = Some info
       /\ python_version info = "3.11.4"
       /\ python_home info = "/usr/local".
Proof.
  apply (describe_metadata cfg_world "/v" "discovered"); reflexivity.
Defined.

(** C7, the scenario as the claim words it: the key [included] is not
    left out, the parser stores it with the value ["true"]. *)
Lemma included_key_is_extracted :
  read_text cfg_world (OsPath.join "/v" "pyvenv.cfg") = Some example_cfg
  /\ ~ (parse_pyvenv_cfg cfg_world "/v" !! "included" = None).
Proof.
  split; [reflexivity|]. vm_compute. discriminate.
Qed.

(** ** Managed environments *)

Section Managed.

Variable w : World.

Lemma load_managed_step_app (acc : list VenvInfo) (p : string) :
  load_managed_step w acc p = acc ++ managed_entry w p.
Proof.
  unfold managed_entry, load_managed_step.
  destruct (isdir w p && path_exists w (OsPath.join p "pyvenv.cfg")).
  - destruct (_build_venv_info w p "managed"); simpl; [reflexivity|].
    symmetry. apply app_nil_r.
  - reflexivity.
Qed.

Lemma load_managed_fold (acc : list VenvInfo) (paths : list string) :
  foldl (load_managed_step w) acc paths = acc ++ flat_map (managed_entry w) paths.
Proof.
  revert acc. induction paths as [|p paths IH]; intros acc; simpl.
  - symmetry. apply app_nil_r.
  - rewrite IH, load_managed_step_app, <- app_assoc. reflexivity.
Qed.

End Managed.




(** ** The managed-path registry *)

(** C4 (as the code has it).  [add_managed_venv] compares the absolute,
    normalised form of the path ([os.path.abspath], which resolves no
    symbolic link) with the registered strings: a path whose absolute form
    is registered leaves the configuration as it is, another one is
    appended at the end, and a registry without repeated entries stays
    without repeated entries. *)
Theorem add_managed_by_abspath (w : World) (config : Config) (venv_path : string) :
  let p := OsPath.abspath (cwd w) venv_path in
  (p ∈ managed_venvs config -> add_managed_venv w config venv_path = config)
  /\ (p ∉ managed_venvs config ->
      managed_venvs (add_managed_venv w config venv_path)
      = managed_venvs config ++ [p])
  /\ (NoDup (managed_venvs config) ->
      NoDup (managed_venvs (add_managed_venv w config venv_path))).
Proof.
  intros p. unfold add_managed_venv. fold p.
  split; [|split].
  - intros Hin. rewrite bool_decide_eq_false_2; [reflexivity|]. tauto.
  - intros Hnin. rewrite bool_decide_eq_true_2 by assumption. reflexivity.
  - intros Hnd. case_bool_decide; [|assumption]. simpl.
    apply NoDup_app. split; [assumption|]. split.
    + intros x Hx Hx'. apply list_elem_of_singleton in Hx'. subst x. contradiction.
    + apply NoDup_singleton.
Qed.

Lemma add_managed_by_abspath_witness :
  add_managed_venv blank link_config "/real/./env" = link_config
  /\ managed_venvs (add_managed_venv blank link_config "/other")
     = ["/real/env"; "/other"]
  /\ NoDup (managed_venvs (add_managed_venv blank link_config "/other")).
Proof.
  split; [|split].
  - apply (add_managed_by_abspath blank link_config "/real/./env").
    vm_compute. apply list_elem_of_here.
  - apply (add_managed_by_abspath blank link_config "/other").
    vm_compute. intros H. apply list_elem_of_singleton in H. discriminate.
  - apply (add_managed_by_abspath blank link_config "/other").
    vm_compute. apply NoDup_singleton.
Defined.

(** C4 as the claim words it: a path that is a symbolic link to a
    registered environment has the canonical path of that entry and is
    registered all the same, next to it. *)
Lemma add_managed_keeps_linked_duplicate :
  let config := add_managed_venv link_world link_config "/link/env" in
  realpath link_world "/link/env" = realpath link_world "/real/env"
  /\ managed_venvs config = ["/real/env"; "/link/env"]
  /\ ~ NoDup (map (realpath link_world) (managed_venvs config))
  /\ config <> link_config.
Proof.
  split; [reflexivity|]. split; [vm_compute; reflexivity|]. split.
  - vm_compute. intros H. apply NoDup_cons in H as [H _].
    apply H, list_elem_of_here.
  - vm_compute. discriminate.
Qed.

(** ** Deleting an environment *)



(** ** Package operations and the bundled interpreter *)

(** C1 (as the code has it).  Every package operation takes the
    interpreter at [<environment>/bin/python].  [list_packages] looks for
    that file first and, when it is missing, returns the empty list without
    starting anything.  [install_package], [remove_package] and
    [upgrade_package] make no such test: each starts the interpreter path
    once, and an exception of that start is the exception of the
    operation. *)
Theorem package_ops_interpreter (w : World) (venv_path arg : string) :
  let py := OsPath.join (OsPath.join venv_path "bin") "python" in
  get_venv_python venv_path = py
  /\ (isfile w py = false -> list_packages w venv_path = (Ok [], []))
  /\ (install_package w venv_path arg).2
     = [Spawn [py; "-m"; "pip"; "install"; arg] 300]
  /\ (remove_package w venv_path arg).2
     = [Spawn [py; "-m"; "pip"; "uninstall"; "-y"; arg] 60]
  /\ (upgrade_package w venv_path arg).2
     = [Spawn [py; "-m"; "pip"; "install"; "--upgrade"; arg] 300]
  /\ (forall e, run w [py; "-m"; "pip"; "install"; arg] 300 = Failed e ->
                (install_package w venv_path arg).1 = Raise e)
  /\ (forall e, run w [py; "-m"; "pip"; "uninstall"; "-y"; arg] 60 = Failed e ->
                (remove_package w venv_path arg).1 = Raise e)
  /\ (forall e, run w [py; "-m"; "pip"; "install"; "--upgrade"; arg] 300 = Failed e ->
                (upgrade_package w venv_path arg).1 = Raise e).
Proof.
  intros py.
  split; [reflexivity|].
  split. { intros H. unfold list_packages.
           change (get_venv_python venv_path) with py. rewrite H. reflexivity. }
  split; [reflexivity|]. split; [reflexivity|]. split; [reflexivity|].
  split; [|split]; intros e He;
    unfold install_package, remove_package, upgrade_package;
    change (get_venv_python venv_path) with py; rewrite He; reflexivity.
Qed.

Lemma package_ops_interpreter_witness :
  list_packages blank "/v" = (Ok [], [])
  /\ (install_package blank "/v" "requests").1 = Raise FileNotFoundError
  /\ (remove_package blank "/v" "requests").1 = Raise FileNotFoundError
  /\ (upgrade_package blank "/v" "requests").1 = Raise FileNotFoundError.
Proof.
  pose proof (package_ops_interpreter blank "/v" "requests") as H.
  simpl in H. destruct H as (_ & Hl & _ & _ & _ & Hi & Hr & Hu).
  split; [apply Hl; reflexivity|].
  split; [apply Hi; reflexivity|].
  split; [apply Hr; reflexivity | apply Hu; reflexivity].
Defined.

(** C1 as the claim words it: with the interpreter missing, installing
    does start the interpreter path, and what it raises is the exception
    of that start, not a [VenvError]. *)
Lemma install_spawns_missing_interpreter :
  isfile blank (get_venv_python "/v") = false
  /\ (install_package blank "/v" "requests").2
     = [Spawn ["/v/bin/python"; "-m"; "pip"; "install"; "requests"] 300]
  /\ ~ (exists msg, (install_package blank "/v" "requests").1 = Raise (VenvError msg)).
Proof.
  split; [reflexivity|]. split; [reflexivity|].
  intros [msg H]. vm_compute in H. discriminate.
Qed.

(** ** Background Task Supervisor *)

Module WorkersFacts.
Import Workers.

Lemma successes_app {R} t (a b : list (call R)) :
  successes t (a ++ b) = successes t a + successes t b.
Proof. unfold successes. rewrite List.filter_app, List.length_app. reflexivity. Qed.

Lemma errors_app {R} t (a b : list (call R)) :
  errors t (a ++ b) = errors t a + errors t b.
Proof. unfold errors. rewrite List.filter_app, List.length_app. reflexivity. Qed.

Lemma idle_notices_app {R} (a b : list (call R)) :
  idle_notices (a ++ b) = idle_notices a + idle_notices b.
Proof. unfold idle_notices. rewrite List.filter_app, List.length_app. reflexivity. Qed.

(** C9 (as the code has it).  Whatever the state of the supervisor when
    the signal of a task is delivered, the delivery adds calls [new] to
    the calls made before, and among them: after a normal return the
    success callback once and the error callback not at all; after an
    exception the success callback not at all and the error callback once
    if the caller passed one, not at all otherwise.  In both cases no
    entry is left under the task's id, and the status callback is told
    once that the supervisor is not busy if there is a status callback. *)
Theorem one_terminal_callback {R} (tm : TaskManager R) (task_id : string)
    (task : nat) (with_on_error : bool) (func : returned R) :
  let tm' := deliver tm task_id task with_on_error (BackgroundTask_run func) in
  exists new,
    calls tm' = calls tm ++ new
    /\ match func with
       | Returns _ => successes task new = 1 /\ errors task new = 0
       | Raises _ =>
           successes task new = 0
           /\ errors task new = if with_on_error then 1 else 0
       end
    /\ _tasks tm' !! task_id = None
    /\ idle_notices new = if has_status_callback tm then 1 else 0.
Proof.
  destruct func as [result|e]; simpl.
  - eexists. split; [reflexivity|].
    rewrite successes_app, errors_app, idle_notices_app.
    split; [|split; [apply lookup_delete_eq|]];
      destruct (has_status_callback tm); simpl;
      unfold successes, errors; simpl; rewrite ?Nat.eqb_refl; auto.
  - eexists. split; [reflexivity|].
    rewrite successes_app, errors_app, idle_notices_app.
    split; [|split; [apply lookup_delete_eq|]];
      destruct (has_status_callback tm), with_on_error; simpl;
      unfold successes, errors; simpl; rewrite ?Nat.eqb_refl; auto.
Qed.

(** C9 as the claim words it: a unit of work submitted without an error
    callback, whose operation raises, ends with neither callback called. *)
Lemma raise_without_on_error_calls_neither :
  let tm := run (R := unit) (init true) "refresh" (Raises TimeoutExpired) false None in
  calls tm = [status_callback (ErrorText TimeoutExpired) false]
  /\ successes 0 (calls tm) + errors 0 (calls tm) = 0.
Proof. split; reflexivity. Qed.

(** A supervisor built without a status callback notifies nobody. *)
Lemma no_status_callback_no_notice :
  calls (run (R := unit) (init false) "refresh" (Returns tt) true (Some "Scanning..."))
  = [on_success 0 tt].
Proof. reflexivity. Qed.

End WorkersFacts.

(** ** Sorting *)

Section Sorting.

Context {A : Type} (le : A -> A -> bool).
Hypothesis le_total : forall x y, le x y = true \/ le y x = true.
Hypothesis le_trans : forall x y z, le x y = true -> le y z = true -> le x z = true.

Lemma insert_by_perm x l : Permutation (insert_by le x l) (x :: l).
Proof.
  induction l as [|y l IH]; simpl; [reflexivity|].
  destruct (le x y); [reflexivity|].
  rewrite IH. apply perm_swap.
Qed.

Lemma sort_by_perm l : Permutation (sort_by le l) l.
Proof.
  induction l as [|x l IH]; simpl; [reflexivity|].
  rewrite insert_by_perm. constructor. exact IH.
Qed.

Lemma insert_by_sorted x l :
  StronglySorted (fun a b => le a b = true) l ->
  StronglySorted (fun a b => le a b = true) (insert_by le x l).
Proof.
  induction 1 as [|y l Hs IH Hy]; simpl.
  - repeat constructor.
  - destruct (le x y) eqn:Hxy.
    + constructor; [constructor; assumption|].
      constructor; [assumption|].
      eapply Forall_impl; [exact Hy|]. intros z Hz. simpl in Hz.
      eapply le_trans; eassumption.
    + constructor; [exact IH|].
      eapply Permutation_Forall; [symmetry; apply insert_by_perm|].
      constructor; [|assumption].
      destruct (le_total x y) as [H|H]; congruence.
Qed.

Lemma sort_by_sorted l : StronglySorted (fun a b => le a b = true) (sort_by le l).
Proof.
  induction l as [|x l IH]; simpl; [constructor|].
  apply insert_by_sorted, IH.
Qed.

End Sorting.

Lemma string_leb_trans a b c :
  String.leb a b = true -> String.leb b c = true -> String.leb a c = true.
Proof.
  unfold String.leb. revert b c.
  induction a as [|x a IH]; intros [|y b] [|z c]; simpl; try easy.
  unfold Ascii.compare.
  destruct (N.compare_spec (N_of_ascii x) (N_of_ascii y)),
           (N.compare_spec (N_of_ascii y) (N_of_ascii z)),
           (N.compare_spec (N_of_ascii x) (N_of_ascii z));
    try easy; try lia.
  apply IH.
Qed.

Lemma name_le_total a b : name_le a b = true \/ name_le b a = true.
Proof. apply String.leb_total. Qed.

Lemma name_le_trans a b c :
  name_le a b = true -> name_le b c = true -> name_le a c = true.
Proof. apply string_leb_trans. Qed.

(** ** Keeping the first element per key *)

Section FirstPerKey.

Context {A : Type} (key : A -> string).

Local Abbreviation differs x := (fun y => negb (String.eqb (key y) (key x))).

Lemma filter_filter_ext (f g h : A -> bool) (l : list A) :
  (forall x, f x && g x = h x) ->
  List.filter f (List.filter g l) = List.filter h l.
Proof.
  intros E. induction l as [|x l IH]; simpl; [reflexivity|].
  rewrite <- E. destruct (g x); simpl.
  - rewrite andb_true_r. destruct (f x); rewrite IH; reflexivity.
  - rewrite andb_false_r. exact IH.
Qed.

(** A filter that looks at the key only goes through [first_per_key]. *)
Lemma first_per_key_filter (f : string -> bool) (l : list A) :
  List.filter (fun x => f (key x)) (first_per_key key l)
  = first_per_key key (List.filter (fun x => f (key x)) l).
Proof.
  induction l as [|x l IH]; simpl; [reflexivity|].
  destruct (f (key x)) eqn:Hx; simpl.
  - f_equal. rewrite <- IH.
    rewrite !(filter_filter_ext _ _ (fun y => f (key y) && differs x y)).
    + reflexivity.
    + intros y. apply andb_comm.
    + intros y. reflexivity.
  - rewrite <- IH. apply filter_filter_ext. intros y.
    destruct (String.eqb_spec (key y) (key x)) as [E|E]; simpl.
    + rewrite E, Hx. reflexivity.
    + apply andb_true_r.
Qed.

Lemma first_per_key_app (a b : list A) :
  first_per_key key (a ++ b)
  = first_per_key key a
    ++ List.filter (fun y => bool_decide (key y ∉ map key a)) (first_per_key key b).
Proof.
  induction a as [|x a IH]; simpl.
  - symmetry. apply forallb_filter_id. apply forallb_forall. intros y _.
    first [reflexivity | apply bool_decide_eq_true_2, not_elem_of_nil].
  - f_equal. rewrite IH, List.filter_app. f_equal.
    apply filter_filter_ext. intros y.
    destruct (String.eqb_spec (key y) (key x)) as [E|E]; simpl.
    + symmetry. apply bool_decide_eq_false_2. intros H. apply H.
      rewrite E. apply list_elem_of_here.
    + apply bool_decide_ext. rewrite not_elem_of_cons. tauto.
Qed.

Lemma first_per_key_sub (l : list A) x : x ∈ first_per_key key l -> x ∈ l.
Proof.
  revert x. induction l as [|y l IH]; simpl; intros x Hx; [exact Hx|].
  apply elem_of_cons in Hx as [->|Hx]; [apply list_elem_of_here|].
  apply list_elem_of_further, IH.
  apply list_elem_of_In in Hx. apply filter_In in Hx as [Hx _].
  apply list_elem_of_In, Hx.
Qed.

(** Every key of the list is the key of a kept element. *)
Lemma first_per_key_covers (l : list A) x :
  x ∈ l -> exists x', x' ∈ first_per_key key l /\ key x' = key x.
Proof.
  induction l as [|y l IH]; intros Hx; [inversion Hx|]. simpl.
  destruct (String.eqb_spec (key x) (key y)) as [E|E].
  - exists y. split; [apply list_elem_of_here | congruence].
  - apply elem_of_cons in Hx as [->|Hx]; [congruence|].
    destruct (IH Hx) as (x' & Hx' & Ek). exists x'. split; [|exact Ek].
    apply list_elem_of_further, list_elem_of_In, filter_In.
    split; [apply list_elem_of_In, Hx'|].
    rewrite Ek. apply negb_true_iff, String.eqb_neq, E.
Qed.

Lemma NoDup_map_filter (f : A -> bool) (l : list A) :
  NoDup (map key l) -> NoDup (map key (List.filter f l)).
Proof.
  induction l as [|x l IH]; simpl; intros H; [exact H|].
  apply NoDup_cons in H as [Hx Hl].
  destruct (f x); simpl; [|auto].
  apply NoDup_cons. split; [|auto].
  intros Hin. apply Hx.
  apply list_elem_of_fmap in Hin as (y & Ey & Hy).
  apply list_elem_of_fmap. exists y. split; [exact Ey|].
  apply list_elem_of_In in Hy. apply filter_In in Hy as [Hy _].
  apply list_elem_of_In, Hy.
Qed.

Lemma first_per_key_NoDup (l : list A) : NoDup (map key (first_per_key key l)).
Proof.
  induction l as [|x l IH]; simpl; [apply NoDup_nil_2|].
  apply NoDup_cons. split; [|apply NoDup_map_filter, IH].
  intros Hin. apply list_elem_of_fmap in Hin as (y & Ey & Hy).
  apply list_elem_of_In in Hy. apply filter_In in Hy as [_ Hy].
  apply negb_true_iff, String.eqb_neq in Hy. congruence.
Qed.

Lemma NoDup_map_inj (l : list A) x y :
  NoDup (map key l) -> x ∈ l -> y ∈ l -> key x = key y -> x = y.
Proof.
  induction l as [|z l IH]; intros Hnd Hx Hy E; [inversion Hx|].
  simpl in Hnd. apply NoDup_cons in Hnd as [Hz Hnd].
  apply elem_of_cons in Hx as [->|Hx]; apply elem_of_cons in Hy as [->|Hy];
    auto.
  - exfalso. apply Hz. rewrite E. apply list_elem_of_fmap. eauto.
  - exfalso. apply Hz. rewrite <- E. apply list_elem_of_fmap. eauto.
Qed.

End FirstPerKey.

(** ** The merge *)

Section Merge.

Variable w : World.

(** The two loops of [do_refresh], told by what they keep. *)
Lemma merge_fold (l : list VenvInfo) (acc : list VenvInfo) (seen : gset string) :
  foldl (merge_step w) (acc, seen) l
  = (acc ++ first_per_key (canonical w)
              (List.filter (fun v => bool_decide (canonical w v ∉ seen)) l),
     seen ∪ list_to_set (map (canonical w) l)).
Proof.
  revert acc seen. induction l as [|x l IH]; intros acc seen; simpl.
  - rewrite app_nil_r. f_equal. set_solver.
  - unfold merge_step at 2. simpl. fold (canonical w x).
    destruct (bool_decide (canonical w x ∉ seen)) eqn:Hx.
    + apply bool_decide_eq_true_1 in Hx.
      rewrite IH. simpl. rewrite <- app_assoc. simpl. f_equal.
      * do 2 f_equal.
        rewrite (first_per_key_filter (canonical w)
                   (fun k => negb (String.eqb k (canonical w x)))).
        f_equal. symmetry. apply filter_filter_ext. intros y.
        destruct (String.eqb_spec (canonical w y) (canonical w x)) as [E|E];
          simpl.
        -- symmetry. apply bool_decide_eq_false_2. rewrite E. set_solver.
        -- apply bool_decide_ext. set_solver.
      * set_solver.
    + apply bool_decide_eq_false_1 in Hx.
      rewrite IH. f_equal. apply set_eq. intros k.
      rewrite !elem_of_union, elem_of_singleton.
      split; [tauto|]. intros [H|[->|H]]; [tauto| |tauto].
      left. destruct (decide (canonical w x ∈ seen)); tauto.
Qed.

Lemma merge_venvs_eq (managed discovered : list VenvInfo) :
  merge_venvs w managed discovered
  = sort_by name_le (first_per_key (canonical w) (managed ++ discovered)).
Proof.
  unfold merge_venvs. rewrite !merge_fold. simpl. f_equal.
  rewrite first_per_key_app. f_equal.
  - f_equal. apply forallb_filter_id, forallb_forall. intros v _.
    apply bool_decide_eq_true_2. set_solver.
  - symmetry. etransitivity.
    { exact (first_per_key_filter (canonical w)
               (fun k => bool_decide (k ∉ map (canonical w) managed)) discovered). }
    f_equal. apply filter_ext. intros v. apply bool_decide_ext.
    rewrite elem_of_union, elem_of_list_to_set. set_solver.
Qed.

End Merge.

(** C3.  The merge is the list "managed, then discovered" with only the
    first descriptor of each canonical path kept, sorted by lower-cased
    name.  So no canonical path occurs twice in it, a discovered
    descriptor whose canonical path is that of a managed one is dropped,
    and for such a path the one descriptor kept is a managed one. *)
Theorem merge_contract (w : World) (managed discovered : list VenvInfo) :
  let merged := merge_venvs w managed discovered in
  merged = sort_by name_le (first_per_key (canonical w) (managed ++ discovered))
  /\ first_per_key (canonical w) (managed ++ discovered)
     = first_per_key (canonical w) managed
       ++ List.filter (fun d => bool_decide (canonical w d ∉ map (canonical w) managed))
                      (first_per_key (canonical w) discovered)
  /\ Permutation merged (first_per_key (canonical w) (managed ++ discovered))
  /\ NoDup (map (canonical w) merged)
  /\ StronglySorted
       (fun a b => Py.str_le (Py.lower (name a)) (Py.lower (name b)) = true) merged
  /\ (forall m d,
         m ∈ managed -> d ∈ discovered -> canonical w m = canonical w d ->
         exists m', m' ∈ managed /\ m' ∈ merged
                    /\ canonical w m' = canonical w d
                    /\ forall v, v ∈ merged -> canonical w v = canonical w d -> v = m').
Proof.
  intros merged.
  assert (Heq := merge_venvs_eq w managed discovered). fold merged in Heq.
  assert (Hperm : Permutation merged
                    (first_per_key (canonical w) (managed ++ discovered))).
  { rewrite Heq. apply sort_by_perm. }
  assert (Hnd : NoDup (map (canonical w) merged)).
  { rewrite Hperm. apply first_per_key_NoDup. }
  split; [exact Heq|]. split; [apply first_per_key_app|].
  split; [exact Hperm|]. split; [exact Hnd|].
  split.
  - rewrite Heq. apply (sort_by_sorted name_le name_le_total name_le_trans).
  - intros m d Hm _ E.
    destruct (first_per_key_covers (canonical w) managed m Hm) as (m' & Hm' & E').
    exists m'. split; [eapply first_per_key_sub, Hm'|].
    assert (Hin : m' ∈ merged).
    { rewrite Hperm, first_per_key_app. apply elem_of_app. left. exact Hm'. }
    split; [exact Hin|]. split; [congruence|].
    intros v Hv Ev.
    apply (NoDup_map_inj (canonical w) merged); try assumption.
    congruence.
Qed.

(** The managed descriptor of [/real/env] wins over the discovered one
    that reaches it through a link. *)
Lemma merge_contract_witness :
  merge_venvs link_world managed_list discovered_list
  = [venv "alpha" "/home/u/alpha" "discovered"; venv "env" "/real/env" "managed";
     venv "Zeta" "/envs/Zeta" "managed"]
  /\ exists m', m' ∈ managed_list
                /\ m' ∈ merge_venvs link_world managed_list discovered_list
                /\ canonical link_world m' = "/real/env".
Proof.
  split; [vm_compute; reflexivity|].
  destruct (merge_contract link_world managed_list discovered_list)
    as (_ & _ & _ & _ & _ & H).
  destruct (H (venv "env" "/real/env" "managed") (venv "env" "/link/env" "discovered"))
    as (m' & H1 & H2 & H3 & _).
  - apply list_elem_of_here.
  - apply list_elem_of_further, list_elem_of_here.
  - reflexivity.
  - exists m'. split; [exact H1|]. split; [exact H2|exact H3].
Defined.

(** ** The interpreter locator *)

Lemma union_absorb (X Y : gset string) k : k ∈ X -> X ∪ Y = X ∪ ({[k]} ∪ Y).
Proof. set_solver. Qed.

Section Locator.

Variable w : World.

Lemma probe_loops_flat (pats : list (string * string)) (st : outcome probing) :
  foldl (fun st ps => foldl (probe w ps.2) st (pattern_paths w ps.1)) st pats
  = foldl (probe_candidate w) st
      (flat_map (fun ps => map (fun p => (p, ps.2)) (pattern_paths w ps.1)) pats).
Proof.
  revert st. induction pats as [|ps pats IH]; intros st; simpl; [reflexivity|].
  rewrite foldl_app, IH. f_equal.
  generalize (pattern_paths w ps.1). intros l. revert st.
  induction l as [|p l IHl]; intros st; simpl; [reflexivity|]. apply IHl.
Qed.

Lemma probe_raise e (l : list (string * string)) :
  foldl (probe_candidate w) (Raise e) l = Raise e.
Proof. induction l as [|c l IH]; cbn [foldl]; [reflexivity|exact IH]. Qed.

(** What one probe does, told by [verified]. *)
Lemma probe_candidate_cases s c :
  match probe_candidate w (Ok s) c with
  | Raise _ => True
  | Ok s' =>
      if bool_decide (realpath w c.1 ∈ seen_realpaths s) then s' = s
      else match verified w c with
           | Some i =>
               s' = {| candidates := candidates s ++ [i];
                       seen_realpaths := seen_realpaths s ∪ {[target w i]} |}
           | None => s' = s
           end
  end.
Proof.
  unfold probe_candidate, probe, verified.
  destruct (bool_decide (realpath w c.1 ∈ seen_realpaths s)); [reflexivity|].
  destruct (access_x w c.1); simpl; [|reflexivity].
  destruct (run w [c.1; "--version"] 5) as [rc out err|e].
  - destruct (rc =? 0)%Z; reflexivity.
  - destruct (probe_caught e); [reflexivity|exact I].
Qed.

Lemma verified_target c i : verified w c = Some i -> target w i = realpath w c.1.
Proof.
  unfold verified. destruct (access_x w c.1); [|discriminate].
  destruct (run w [c.1; "--version"] 5) as [rc out err|e]; [|discriminate].
  destruct (rc =? 0)%Z; [|discriminate]. intros [= <-]. reflexivity.
Qed.

(** The loops of [detect_python_versions], told by what they keep. *)
Lemma probe_fold (l : list (string * string)) s s' :
  foldl (probe_candidate w) (Ok s) l = Ok s' ->
  candidates s'
  = candidates s
    ++ first_per_key (target w)
         (List.filter (fun i => bool_decide (target w i ∉ seen_realpaths s))
                      (omap (verified w) l))
  /\ seen_realpaths s'
     = seen_realpaths s ∪ list_to_set (map (target w) (omap (verified w) l)).
Proof.
  revert s. induction l as [|c l IH]; intros s; cbn [foldl omap list_omap].
  - intros [= <-]. simpl. rewrite app_nil_r. split; [reflexivity|set_solver].
  - pose proof (probe_candidate_cases s c) as Hc.
    destruct (probe_candidate w (Ok s) c) as [s1|e]; [|rewrite probe_raise; discriminate].
    intros Hf. destruct (IH _ Hf) as [Hcs Hseen]. clear IH Hf.
    destruct (bool_decide (realpath w c.1 ∈ seen_realpaths s)) eqn:Hin.
    + apply bool_decide_eq_true_1 in Hin. subst s1.
      destruct (verified w c) as [i|] eqn:Hv; simpl; [|auto].
      apply verified_target in Hv.
      rewrite bool_decide_eq_false_2 by (intros H; apply H; rewrite Hv; exact Hin).
      split; [exact Hcs|]. rewrite Hseen. apply union_absorb.
      rewrite Hv. exact Hin.
    + apply bool_decide_eq_false_1 in Hin.
      destruct (verified w c) as [i|] eqn:Hv; simpl; subst s1; [|auto].
      apply verified_target in Hv.
      rewrite bool_decide_eq_true_2 by (rewrite Hv; exact Hin).
      simpl in *. rewrite Hcs, Hseen, <- app_assoc. simpl.
      split; [|symmetry; apply (assoc_L (∪))]. do 2 f_equal.
      etransitivity;
        [|symmetry;
          exact (first_per_key_filter (target w)
                   (fun k => negb (String.eqb k (target w i))) _)].
      f_equal. symmetry. apply filter_filter_ext. intros y.
      destruct (String.eqb_spec (target w y) (target w i)) as [E|E]; simpl.
      * symmetry. apply bool_decide_eq_false_2. rewrite E. set_solver.
      * apply bool_decide_ext. set_solver.
Qed.


End Locator.




(** ** Walking a directory tree *)

Lemma tree_ind' (P : tree -> Prop) :
  (forall filenames subdirs,
      Forall (fun e => P e.2) subdirs -> P (Dir filenames subdirs)) ->
  forall t, P t.
Proof.
  intros H.
  exact (fix rec (t : tree) : P t :=
           match t with
           | Dir filenames subdirs =>
               H filenames subdirs
                 ((fix go (es : list (string * bool * tree))
                     : Forall (fun e => P e.2) es :=
                     match es with
                     | [] => List.Forall_nil _
                     | (d, l, sub) :: es' =>
                         @List.Forall_cons _ (fun e => P e.2) (d, l, sub) es'
                                     (rec sub) (go es')
                     end) subdirs)
           end).
Qed.

Section Walk.

Context {S : Type}.
Variable body : string -> list string -> list string -> S -> list string * S.

Lemma os_walk_eq top filenames subdirs s :
  os_walk body top (Dir filenames subdirs) s
  = let r := body top (map (fun e => e.1.1) subdirs) filenames s in
    let below := walk_subdirs (os_walk body) top r.1 subdirs r.2 in
    (below.1, {| y_dirpath := top; y_dirnames := r.1;
                 y_filenames := filenames |} :: below.2).
Proof.
  cbn [os_walk].
  destruct (body top (map (fun e => e.1.1) subdirs) filenames s) as [dirs s1].
  cbn [fst snd]. destruct (walk_subdirs _ _ _ _ _). reflexivity.
Qed.

Lemma walk_subdirs_cons (walk : string -> tree -> S -> S * list yielded)
    top dirnames d (l : bool) sub es s :
  walk_subdirs walk top dirnames ((d, l, sub) :: es) s
  = if bool_decide (d ∈ dirnames) && negb l then
      let r := walk (OsPath.join top d) sub s in
      let rest := walk_subdirs walk top dirnames es r.1 in
      (rest.1, r.2 ++ rest.2)
    else walk_subdirs walk top dirnames es s.
Proof.
  cbn [walk_subdirs].
  destruct (bool_decide (d ∈ dirnames) && negb l); [|reflexivity].
  destruct (walk (OsPath.join top d) sub s) as [s' ys1]. cbn [fst snd].
  destruct (walk_subdirs walk top dirnames es s'). reflexivity.
Qed.

(** *** A loop invariant over the directories handed out *)

Variable I : S -> list yielded -> Prop.
Hypothesis body_keeps :
  forall s ys top names filenames,
    I s ys ->
    let r := body top names filenames s in
    I r.2 (ys ++ [{| y_dirpath := top; y_dirnames := r.1;
                     y_filenames := filenames |}]).

Lemma walk_subdirs_inv (walk : string -> tree -> S -> S * list yielded)
    top dirnames es :
  Forall (fun e => forall top' s ys,
              I s ys -> I (walk top' e.2 s).1 (ys ++ (walk top' e.2 s).2)) es ->
  forall s ys,
    I s ys ->
    I (walk_subdirs walk top dirnames es s).1
      (ys ++ (walk_subdirs walk top dirnames es s).2).
Proof.
  induction 1 as [|[[d l] sub] es Hsub _ IH]; intros s ys Hs.
  - simpl. rewrite app_nil_r. exact Hs.
  - rewrite walk_subdirs_cons.
    destruct (bool_decide (d ∈ dirnames) && negb l); [|apply IH, Hs].
    cbn [fst snd]. rewrite app_assoc. apply IH, Hsub, Hs.
Qed.

Lemma os_walk_inv t :
  forall top s ys,
    I s ys -> I (os_walk body top t s).1 (ys ++ (os_walk body top t s).2).
Proof.
  induction t as [filenames subdirs IH] using tree_ind'. intros top s ys Hs.
  rewrite os_walk_eq. cbn [fst snd].
  rewrite (cons_middle _ ys), app_assoc.
  apply walk_subdirs_inv; [exact IH|].
  apply body_keeps, Hs.
Qed.

End Walk.

Section WalkShape.

Context {S : Type}.
Variable body : string -> list string -> list string -> S -> list string * S.

Lemma entered_from_mono (ys ys' : list yielded) y :
  (forall p, p ∈ ys -> p ∈ ys') -> entered_from ys y -> entered_from ys' y.
Proof. intros Hsub (p & d & Hp & Hd & E). exists p, d. auto. Qed.

Lemma walk_subdirs_shape (walk : string -> tree -> S -> S * list yielded)
    top dirnames es :
  Forall (fun e => forall top' s, walk_shape top' (walk top' e.2 s).2) es ->
  forall s y,
    y ∈ (walk_subdirs walk top dirnames es s).2 ->
    (exists d, d ∈ dirnames /\ y_dirpath y = OsPath.join top d)
    \/ entered_from (walk_subdirs walk top dirnames es s).2 y.
Proof.
  induction 1 as [|[[d l] sub] es Hsub _ IH]; intros s y Hy.
  - inversion Hy.
  - rewrite walk_subdirs_cons in *.
    destruct (bool_decide (d ∈ dirnames)) eqn:Hd; simpl in *; [|auto].
    destruct l; simpl in *; [auto|].
    apply elem_of_app in Hy as [Hy|Hy].
    + destruct (Hsub (OsPath.join top d) s) as (y0 & rest & E & Htop & Hrest).
      rewrite E in Hy. apply elem_of_cons in Hy as [->|Hy].
      * left. exists d. split; [|exact Htop].
        apply bool_decide_eq_true_1 in Hd. exact Hd.
      * right. eapply entered_from_mono; [|apply Hrest, Hy].
        intros p Hp. apply elem_of_app. left. exact Hp.
    + destruct (IH _ _ Hy) as [H|H]; [left; exact H|right].
      eapply entered_from_mono; [|exact H].
      intros p Hp. apply elem_of_app. right. exact Hp.
Qed.

Lemma os_walk_shape t : forall top s, walk_shape top (os_walk body top t s).2.
Proof.
  induction t as [filenames subdirs IH] using tree_ind'. intros top s.
  rewrite os_walk_eq. cbn [fst snd].
  eexists _, _. split; [reflexivity|]. split; [reflexivity|].
  intros y Hy.
  destruct (walk_subdirs_shape _ _ _ _ IH _ _ Hy) as [(d & Hd & E)|H].
  - eexists _, d. split; [apply list_elem_of_here|]. split; [exact Hd|exact E].
  - eapply entered_from_mono; [|exact H].
    intros p Hp. apply list_elem_of_further, Hp.
Qed.

(** When the directory names the body leaves do not depend on the state
    of the loop, neither do the directories handed out. *)
Hypothesis dirnames_stateless :
  forall top names filenames s s',
    (body top names filenames s).1 = (body top names filenames s').1.

Lemma walk_subdirs_stateless (walk : string -> tree -> S -> S * list yielded)
    top dirnames es :
  Forall (fun e => forall top' s s', (walk top' e.2 s).2 = (walk top' e.2 s').2) es ->
  forall s s',
    (walk_subdirs walk top dirnames es s).2
    = (walk_subdirs walk top dirnames es s').2.
Proof.
  induction 1 as [|[[d l] sub] es Hsub _ IH]; intros s s'; [reflexivity|].
  rewrite !walk_subdirs_cons.
  destruct (bool_decide (d ∈ dirnames) && negb l); [|apply IH].
  cbn [fst snd]. f_equal; [apply Hsub|apply IH].
Qed.

Lemma os_walk_stateless t :
  forall top s s', (os_walk body top t s).2 = (os_walk body top t s').2.
Proof.
  induction t as [filenames subdirs IH] using tree_ind'. intros top s s'.
  rewrite !os_walk_eq. cbn [fst snd].
  rewrite (dirnames_stateless top _ filenames s s'). f_equal.
  apply walk_subdirs_stateless, IH.
Qed.

End WalkShape.

(** ** Discovery *)

Example discover_home :
  discover_venvs home_world ["~"] 3
  = [ {| name := ".venv"; path := "/home/u/proj/.venv";
         python_version := "3.12.1"; python_home := "";
         is_valid := false; source := "discovered" |} ]
  /\ map y_dirpath (walked home_world 3 "~")
     = ["/home/u"; "/home/u/proj"; "/home/u/proj/.venv"; "/home/u/a";
        "/home/u/a/b"; "/home/u/a/b/c"].
Proof. split; vm_compute; reflexivity. Qed.

Section Discover.

Variable w : World.
Variable base : string.
Variable max_depth : Z.

Lemma discover_body_cases top names filenames st :
  let r := discover_body w base max_depth top names filenames st in
  let depth := Z.of_nat (depth_of base top) in
  ((max_depth <= depth)%Z -> r = ([], st))
  /\ ((depth < max_depth)%Z -> "pyvenv.cfg" ∉ filenames ->
      r = (List.filter keep_dir names, st))
  /\ ((depth < max_depth)%Z -> "pyvenv.cfg" ∈ filenames ->
      r.1 = []
      /\ (r.2 = st /\ (realpath w top ∈ seen_paths st
                       \/ _build_venv_info w top "discovered" = None)
          \/ exists info,
               _build_venv_info w top "discovered" = Some info
               /\ (realpath w top ∉ seen_paths st)
               /\ r.2 = {| results := results st ++ [info];
                           seen_paths := seen_paths st ∪ {[realpath w top]} |})).
Proof.
  intros r depth. subst r. unfold discover_body. fold depth.
  rewrite Z.geb_leb.
  destruct (Z.leb_spec max_depth depth) as [Hd|Hd].
  - split; [reflexivity|]. split; intros; lia.
  - split; [intros; lia|].
    destruct (bool_decide ("pyvenv.cfg" ∈ filenames)) eqn:Hcfg.
    + apply bool_decide_eq_true_1 in Hcfg.
      split; [intros _ H; contradiction|]. intros _ _.
      destruct (bool_decide (realpath w top ∉ seen_paths st)) eqn:Hseen.
      * apply bool_decide_eq_true_1 in Hseen.
        destruct (_build_venv_info w top "discovered") as [info|]; simpl.
        -- split; [reflexivity|]. right. eauto.
        -- split; [reflexivity|]. left. auto.
      * apply bool_decide_eq_false_1 in Hseen. simpl.
        split; [reflexivity|]. left. split; [reflexivity|]. left.
        destruct (decide (realpath w top ∈ seen_paths st)); tauto.
    + apply bool_decide_eq_false_1 in Hcfg.
      split; [reflexivity|]. intros _ H. contradiction.
Qed.

(** The directory names the body leaves do not depend on the state. *)
Lemma discover_body_dirnames top names filenames st st' :
  (discover_body w base max_depth top names filenames st).1
  = (discover_body w base max_depth top names filenames st').1.
Proof.
  destruct (discover_body_cases top names filenames st) as (A & B & C).
  destruct (discover_body_cases top names filenames st') as (A' & B' & C').
  destruct (Z.le_gt_cases max_depth (Z.of_nat (depth_of base top))) as [Hd|Hd].
  - rewrite (A Hd), (A' Hd). reflexivity.
  - destruct (decide ("pyvenv.cfg" ∈ filenames)) as [Hc|Hc].
    + destruct (C Hd Hc) as [-> _]. destruct (C' Hd Hc) as [-> _]. reflexivity.
    + rewrite (B Hd Hc), (B' Hd Hc). reflexivity.
Qed.

Lemma discover_body_pruned top names filenames st :
  pruned base max_depth {| y_dirpath := top;
            y_dirnames := (discover_body w base max_depth top names filenames st).1;
            y_filenames := filenames |}.
Proof.
  destruct (discover_body_cases top names filenames st) as (A & B & C).
  unfold pruned. simpl.
  destruct (Z.le_gt_cases max_depth (Z.of_nat (depth_of base top))) as [Hd|Hd].
  - rewrite (A Hd). simpl. repeat split; auto. intros d Hin. inversion Hin.
  - destruct (decide ("pyvenv.cfg" ∈ filenames)) as [Hc|Hc].
    + destruct (C Hd Hc) as [-> _]. repeat split; auto.
      intros d Hin. inversion Hin.
    + rewrite (B Hd Hc). simpl. split; [intros; lia|].
      split; [intros; contradiction|].
      intros d Hin. apply list_elem_of_In, filter_In in Hin. tauto.
Qed.

Lemma os_walk_pruned t top st :
  Forall (pruned base max_depth) (os_walk (discover_body w base max_depth) top t st).2.
Proof.
  apply (os_walk_inv (discover_body w base max_depth)
           (fun _ ys => Forall (pruned base max_depth) ys)) with (ys := []); [|constructor].
  intros s ys top' names filenames Hys. simpl.
  apply Forall_app. split; [exact Hys|].
  constructor; [apply discover_body_pruned|constructor].
Qed.

(** Every descriptor a walk adds was built at a directory handed out. *)
Lemma os_walk_found t top st :
  forall info,
    info ∈ results (os_walk (discover_body w base max_depth) top t st).1 ->
    info ∈ results st
    \/ exists y, y ∈ (os_walk (discover_body w base max_depth) top t st).2
                 /\ found_at w base max_depth y info.
Proof.
  apply (os_walk_inv (discover_body w base max_depth)
           (fun s ys => forall info, info ∈ results s ->
                          info ∈ results st
                          \/ exists y, y ∈ ys /\ found_at w base max_depth y info))
    with (ys := []); [|auto].
  intros s ys top' names filenames Hs. simpl. intros info Hin.
  assert (Hold : info ∈ results s ->
                 info ∈ results st
                 \/ exists y, y ∈ ys ++ [{| y_dirpath := top';
                         y_dirnames := (discover_body w base max_depth top' names filenames s).1;
                         y_filenames := filenames |}]
                              /\ found_at w base max_depth y info).
  { intros H. destruct (Hs _ H) as [|(y & Hy & Hf)]; [auto|right].
    exists y. split; [apply elem_of_app; auto|exact Hf]. }
  destruct (discover_body_cases top' names filenames s) as (A & B & C).
  destruct (Z.le_gt_cases max_depth (Z.of_nat (depth_of base top'))) as [Hd|Hd].
  - rewrite (A Hd) in Hin. auto.
  - destruct (decide ("pyvenv.cfg" ∈ filenames)) as [Hc|Hc].
    + destruct (C Hd Hc) as [_ [[E _]|(info' & Hb & _ & E)]];
        rewrite E in Hin; [auto|]. simpl in Hin.
      apply elem_of_app in Hin as [Hin|Hin]; [auto|].
      apply list_elem_of_singleton in Hin. subst info'. right.
      eexists. split; [apply elem_of_app; right; apply list_elem_of_here|].
      split; [exact Hb|]. split; [exact Hd|exact Hc].
    + rewrite (B Hd Hc) in Hin. auto.
Qed.

End Discover.

Section DiscoverRoots.

Variable w : World.
Variable max_depth : Z.

Lemma discover_root_walked st base_dir :
  (discover_root w max_depth st base_dir).2 = walked w max_depth base_dir.
Proof.
  unfold walked, discover_root.
  destruct (negb (isdir w (expanduser w base_dir))); [reflexivity|].
  apply os_walk_stateless. intros. apply discover_body_dirnames.
Qed.

Lemma walked_pruned base_dir :
  Forall (pruned (expanduser w base_dir) max_depth) (walked w max_depth base_dir).
Proof.
  unfold walked, discover_root.
  destruct (negb (isdir w (expanduser w base_dir))); [constructor|].
  apply os_walk_pruned.
Qed.

Lemma walked_shape base_dir :
  walked w max_depth base_dir = []
  \/ walk_shape (expanduser w base_dir) (walked w max_depth base_dir).
Proof.
  unfold walked, discover_root.
  destruct (negb (isdir w (expanduser w base_dir))); [left; reflexivity|].
  right. apply os_walk_shape.
Qed.

Lemma discover_root_found st base_dir info :
  info ∈ results (discover_root w max_depth st base_dir).1 ->
  info ∈ results st
  \/ exists y, y ∈ walked w max_depth base_dir
               /\ found_at w (expanduser w base_dir) max_depth y info.
Proof.
  rewrite <- (discover_root_walked st). unfold discover_root.
  destruct (negb (isdir w (expanduser w base_dir))); [auto|].
  apply os_walk_found.
Qed.

Lemma discover_fold_found scan_dirs st info :
  info ∈ results (foldl (fun st base_dir => (discover_root w max_depth st base_dir).1)
                        st scan_dirs) ->
  info ∈ results st
  \/ exists base_dir y,
       base_dir ∈ scan_dirs /\ y ∈ walked w max_depth base_dir
       /\ found_at w (expanduser w base_dir) max_depth y info.
Proof.
  revert st. induction scan_dirs as [|b scan_dirs IH]; intros st; simpl; [auto|].
  intros Hin. destruct (IH _ Hin) as [H|(b' & y & Hb & Hy & Hf)].
  - destruct (discover_root_found _ _ _ H) as [|(y & Hy & Hf)]; [auto|].
    right. exists b, y. split; [apply list_elem_of_here|auto].
  - right. exists b', y. split; [apply list_elem_of_further, Hb|auto].
Qed.

End DiscoverRoots.

(** C5.  Every descriptor [discover_venvs] returns was built at a
    directory handed out by the walk of one of the roots, and the depth of
    that directory, counted in separators after the root, is below
    [max_depth], so never above it.  A directory whose depth has reached
    [max_depth] is left with no directory name to descend into, and the
    walk hands out, after its root, only directories named in the list of
    a directory handed out. *)
Theorem discover_depth_bound (w : World) (scan_dirs : list string) (max_depth : Z) :
  (forall info,
      info ∈ discover_venvs w scan_dirs max_depth ->
      exists base_dir y,
        base_dir ∈ scan_dirs /\ y ∈ walked w max_depth base_dir
        /\ _build_venv_info w (y_dirpath y) "discovered" = Some info
        /\ (Z.of_nat (depth_of (expanduser w base_dir) (y_dirpath y)) < max_depth)%Z
        /\ (Z.of_nat (depth_of (expanduser w base_dir) (y_dirpath y)) <= max_depth)%Z)
  /\ (forall base_dir st,
         (discover_root w max_depth st base_dir).2 = walked w max_depth base_dir)
  /\ (forall base_dir y,
         y ∈ walked w max_depth base_dir ->
         (max_depth <= Z.of_nat (depth_of (expanduser w base_dir) (y_dirpath y)))%Z ->
         y_dirnames y = [])
  /\ (forall base_dir,
         walked w max_depth base_dir = []
         \/ walk_shape (expanduser w base_dir) (walked w max_depth base_dir)).
Proof.
  split; [|split; [|split]].
  - intros info Hin. unfold discover_venvs in Hin.
    apply discover_fold_found in Hin as [Hin|(b & y & Hb & Hy & Hf & Hd & _)].
    + inversion Hin.
    + exists b, y. repeat split; auto. lia.
  - intros. apply discover_root_walked.
  - intros b y Hy Hd.
    pose proof (walked_pruned w max_depth b) as Hp.
    rewrite Forall_forall in Hp. destruct (Hp y Hy) as [Hdepth _].
    exact (Hdepth Hd).
  - apply walked_shape.
Qed.

(** The scan of the home directory with depth bound 3: the environment
    at depth 2 is returned, the directory at depth 3 is not descended. *)
Lemma discover_depth_bound_witness :
  (exists base_dir y,
      base_dir ∈ ["~"] /\ y ∈ walked home_world 3 base_dir
      /\ _build_venv_info home_world (y_dirpath y) "discovered"
         = Some {| name := ".venv"; path := "/home/u/proj/.venv";
                   python_version := "3.12.1"; python_home := "";
                   is_valid := false; source := "discovered" |}
      /\ (Z.of_nat (depth_of (expanduser home_world base_dir) (y_dirpath y)) < 3)%Z
      /\ (Z.of_nat (depth_of (expanduser home_world base_dir) (y_dirpath y)) <= 3)%Z)
  /\ y_dirnames {| y_dirpath := "/home/u/a/b/c"; y_dirnames := [];
                   y_filenames := ["pyvenv.cfg"] |} = [].
Proof.
  destruct (discover_depth_bound home_world ["~"] 3) as (H1 & _ & H3 & _).
  split.
  - apply H1. vm_compute. apply list_elem_of_here.
  - apply (H3 "~").
    + vm_compute. do 5 apply list_elem_of_further. apply list_elem_of_here.
    + vm_compute. discriminate.
Defined.

(** ** Discovery returns what it reaches *)

Section Reach.

Variable w : World.
Variable base : string.
Variable max_depth : Z.

Local Abbreviation body := (discover_body w base max_depth).

Lemma discover_body_grows top names filenames s :
  seen_justified w s ->
  seen_justified w (body top names filenames s).2
  /\ forall info, info ∈ results s -> info ∈ results (body top names filenames s).2.
Proof.
  intros Hj.
  destruct (discover_body_cases w base max_depth top names filenames s) as (A & B & C).
  destruct (Z.le_gt_cases max_depth (Z.of_nat (depth_of base top))) as [Hd|Hd].
  { rewrite (A Hd). auto. }
  destruct (decide ("pyvenv.cfg" ∈ filenames)) as [Hc|Hc].
  2: { rewrite (B Hd Hc). auto. }
  destruct (C Hd Hc) as [_ [[E _]|(info' & Hb & _ & E)]]; rewrite E; [auto|].
  simpl. split.
  - intros r Hr. apply elem_of_union in Hr as [Hr|Hr].
    + destruct (Hj r Hr) as (top' & i & H1 & H2 & H3).
      exists top', i. split; [exact H1|]. split; [exact H2|].
      simpl. apply elem_of_app. auto.
    + apply elem_of_singleton in Hr. subst r.
      exists top, info'. split; [exact Hb|]. split; [reflexivity|].
      simpl. apply elem_of_app. right. apply list_elem_of_here.
  - intros info Hin. apply elem_of_app. auto.
Qed.

Lemma os_walk_grows t top s :
  seen_justified w s ->
  seen_justified w (os_walk body top t s).1
  /\ forall info, info ∈ results s -> info ∈ results (os_walk body top t s).1.
Proof.
  intros Hj.
  apply (os_walk_inv body
           (fun s' _ => seen_justified w s'
                        /\ forall info, info ∈ results s -> info ∈ results s'))
    with (ys := []); [|auto].
  intros s' ys top' names filenames [Hj' Hsub]. simpl.
  destruct (discover_body_grows top' names filenames s' Hj') as [H1 H2]. auto.
Qed.

Lemma walk_subdirs_grows top dirnames es s :
  seen_justified w s ->
  seen_justified w (walk_subdirs (os_walk body) top dirnames es s).1
  /\ forall info, info ∈ results s ->
                  info ∈ results (walk_subdirs (os_walk body) top dirnames es s).1.
Proof.
  intros Hj.
  apply (walk_subdirs_inv
           (fun s' (_ : list yielded) =>
              seen_justified w s'
              /\ forall info, info ∈ results s -> info ∈ results s'))
    with (ys := []); [|auto].
  apply Forall_forall. intros e _ top' s' ys [Hj' Hsub].
  destruct (os_walk_grows e.2 top' s' Hj') as [H1 H2]. auto.
Qed.

(** A sub-directory that is named and is no link is walked, and what its
    walk returns stays. *)
Lemma walk_subdirs_enters top dirnames es d sub :
  (d, false, sub) ∈ es -> d ∈ dirnames ->
  forall s,
    seen_justified w s ->
    exists s',
      seen_justified w s'
      /\ forall info,
           info ∈ results (os_walk body (OsPath.join top d) sub s').1 ->
           info ∈ results (walk_subdirs (os_walk body) top dirnames es s).1.
Proof.
  intros Hin Hd. induction es as [|[[d0 l0] sub0] es IH]; [inversion Hin|].
  intros s Hj. rewrite walk_subdirs_cons.
  apply elem_of_cons in Hin as [E|Hin].
  - injection E as <- <- <-.
    rewrite bool_decide_eq_true_2 by exact Hd. simpl.
    exists s. split; [exact Hj|]. intros info Hi.
    apply walk_subdirs_grows; [|exact Hi].
    apply os_walk_grows, Hj.
  - destruct (bool_decide (d0 ∈ dirnames) && negb l0).
    + cbn [fst snd]. apply (IH Hin). apply os_walk_grows, Hj.
    + apply (IH Hin), Hj.
Qed.

Lemma reaches_state top t :
  reaches w base max_depth top t ->
  forall s0,
    seen_justified w s0 ->
    exists s,
      seen_justified w s
      /\ forall info,
           info ∈ results (os_walk body top t s).1 ->
           info ∈ results (os_walk body base (tree_at w base) s0).1.
Proof.
  induction 1 as [|top filenames subdirs d sub _ IH Hdepth Hcfg Hsub Hkeep];
    intros s0 Hj0.
  - exists s0. auto.
  - destruct (IH s0 Hj0) as (s & Hj & Hfinal).
    rewrite os_walk_eq in Hfinal. cbn [fst snd] in Hfinal.
    destruct (discover_body_cases w base max_depth top
                (map (fun e => e.1.1) subdirs) filenames s) as (_ & B & _).
    rewrite (B Hdepth Hcfg) in Hfinal. cbn [fst snd] in Hfinal.
    destruct (walk_subdirs_enters top
                (List.filter keep_dir (map (fun e => e.1.1) subdirs))
                subdirs d sub Hsub) with (s := s) as (s' & Hj' & Hin); [|exact Hj|].
    + apply list_elem_of_In, filter_In. split; [|exact Hkeep].
      apply list_elem_of_In, list_elem_of_fmap. exists (d, false, sub). auto.
    + exists s'. split; [exact Hj'|]. intros info Hi. apply Hfinal, Hin, Hi.
Qed.

(** An environment directory the scan reaches within the depth bound is
    returned, under its own path or under a path with the same canonical
    path met earlier. *)
Lemma reaches_returned top filenames subdirs info :
  reaches w base max_depth top (Dir filenames subdirs) ->
  "pyvenv.cfg" ∈ filenames ->
  (Z.of_nat (depth_of base top) < max_depth)%Z ->
  _build_venv_info w top "discovered" = Some info ->
  forall s0,
    seen_justified w s0 ->
    exists top' info',
      _build_venv_info w top' "discovered" = Some info'
      /\ realpath w top' = realpath w top
      /\ info' ∈ results (os_walk body base (tree_at w base) s0).1.
Proof.
  intros Hreach Hcfg Hdepth Hbuild s0 Hj0.
  destruct (reaches_state _ _ Hreach s0 Hj0) as (s & Hj & Hfinal).
  rewrite os_walk_eq in Hfinal. cbn [fst snd] in Hfinal.
  destruct (discover_body_cases w base max_depth top
              (map (fun e => e.1.1) subdirs) filenames s) as (_ & _ & C).
  destruct (C Hdepth Hcfg) as [E1 [[E2 [Hseen|Hnone]]|(info' & Hb & _ & E2)]].
  - destruct (Hj _ Hseen) as (top' & info' & H1 & H2 & H3).
    exists top', info'. split; [exact H1|]. split; [exact H2|].
    apply Hfinal. apply walk_subdirs_grows; rewrite E2; assumption.
  - congruence.
  - exists top, info'. split; [exact Hb|]. split; [reflexivity|].
    apply Hfinal.
    destruct (discover_body_grows top (map (fun e => e.1.1) subdirs) filenames s Hj)
      as [Hj2 _].
    apply walk_subdirs_grows; [exact Hj2|].
    rewrite E2. simpl. apply elem_of_app. right. apply list_elem_of_here.
Qed.

End Reach.

Section ReachRoots.

Variable w : World.
Variable max_depth : Z.

Local Abbreviation step :=
  (fun st base_dir => (discover_root w max_depth st base_dir).1).

Lemma discover_root_grows st base_dir :
  seen_justified w st ->
  seen_justified w (step st base_dir)
  /\ forall info, info ∈ results st -> info ∈ results (step st base_dir).
Proof.
  intros Hj. unfold discover_root.
  destruct (negb (isdir w (expanduser w base_dir))); [auto|].
  apply os_walk_grows, Hj.
Qed.

Lemma discover_fold_grows scan_dirs st :
  seen_justified w st ->
  seen_justified w (foldl step st scan_dirs)
  /\ forall info, info ∈ results st -> info ∈ results (foldl step st scan_dirs).
Proof.
  revert st. induction scan_dirs as [|b l IH]; intros st Hj; simpl; [auto|].
  destruct (discover_root_grows st b Hj) as [Hj1 Hsub1].
  destruct (IH _ Hj1) as [Hj2 Hsub2]. auto.
Qed.

Lemma discover_fold_returned scan_dirs base_dir top filenames subdirs info :
  base_dir ∈ scan_dirs ->
  isdir w (expanduser w base_dir) = true ->
  reaches w (expanduser w base_dir) max_depth top (Dir filenames subdirs) ->
  "pyvenv.cfg" ∈ filenames ->
  (Z.of_nat (depth_of (expanduser w base_dir) top) < max_depth)%Z ->
  _build_venv_info w top "discovered" = Some info ->
  forall st,
    seen_justified w st ->
    exists top' info',
      _build_venv_info w top' "discovered" = Some info'
      /\ realpath w top' = realpath w top
      /\ info' ∈ results (foldl step st scan_dirs).
Proof.
  intros Hin Hdir Hreach Hcfg Hdepth Hbuild.
  induction scan_dirs as [|b l IH]; [inversion Hin|].
  intros st Hj. simpl.
  apply elem_of_cons in Hin as [<-|Hin].
  - destruct (reaches_returned w _ max_depth _ _ _ _ Hreach Hcfg Hdepth Hbuild st Hj)
      as (top' & info' & H1 & H2 & H3).
    exists top', info'. split; [exact H1|]. split; [exact H2|].
    apply discover_fold_grows; [apply discover_root_grows, Hj|].
    unfold discover_root. rewrite Hdir. exact H3.
  - apply (IH Hin). apply discover_root_grows, Hj.
Qed.

End ReachRoots.

Lemma keep_dir_iff d :
  keep_dir d = true
  <-> ((d ∉ SKIP_DIRS) /\ Py.startswith "." d = false) \/ d = ".venv" \/ d = ".env".
Proof.
  unfold keep_dir.
  rewrite orb_true_iff, andb_true_iff, negb_true_iff, !bool_decide_eq_true.
  rewrite !elem_of_cons, elem_of_nil. tauto.
Qed.

Example home_reaches_proj :
  reaches home_world "/home/u" 3 "/home/u/proj"
    (Dir ["setup.py"]
       [ (".venv", false, Dir ["pyvenv.cfg"] [("lib", false, Dir [] [])]);
         ("node_modules", false, Dir [] [("env", false, Dir ["pyvenv.cfg"] [])]) ]).
Proof.
  refine (reaches_sub home_world "/home/u" 3 "/home/u" ["notes.txt"] _ "proj" _
            (reaches_root home_world "/home/u" 3) _ _ _ _).
  - vm_compute. reflexivity.
  - intros H. apply list_elem_of_singleton in H. discriminate.
  - apply list_elem_of_here.
  - vm_compute. reflexivity.
Qed.

Example home_reaches_venv :
  reaches home_world "/home/u" 3 "/home/u/proj/.venv"
    (Dir ["pyvenv.cfg"] [("lib", false, Dir [] [])]).
Proof.
  refine (reaches_sub home_world "/home/u" 3 "/home/u/proj" ["setup.py"] _ ".venv" _
            home_reaches_proj _ _ _ _).
  - vm_compute. reflexivity.
  - intros H. apply list_elem_of_singleton in H. discriminate.
  - apply list_elem_of_here.
  - vm_compute. reflexivity.
Qed.

(** C6.  A directory name is kept for descent exactly when it is neither
    on the denylist nor starts with a dot, or is [.venv] or [.env].  Every
    directory the walk hands out below a root was entered under a kept
    name.  And an environment directory the scan reaches through kept
    names, among them [.venv] and [.env], within the depth bound is
    returned: under its own path, or under a path of the same canonical
    path met earlier. *)
Theorem discover_skip_rules (w : World) (scan_dirs : list string) (max_depth : Z) :
  (forall d,
      keep_dir d = true
      <-> ((d ∉ SKIP_DIRS) /\ Py.startswith "." d = false)
          \/ d = ".venv" \/ d = ".env")
  /\ (forall base_dir y,
         y ∈ walked w max_depth base_dir ->
         y_dirpath y = expanduser w base_dir
         \/ exists p d,
              p ∈ walked w max_depth base_dir /\ d ∈ y_dirnames p
              /\ keep_dir d = true
              /\ y_dirpath y = OsPath.join (y_dirpath p) d)
  /\ (forall base_dir top filenames subdirs info,
         base_dir ∈ scan_dirs ->
         isdir w (expanduser w base_dir) = true ->
         reaches w (expanduser w base_dir) max_depth top (Dir filenames subdirs) ->
         "pyvenv.cfg" ∈ filenames ->
         (Z.of_nat (depth_of (expanduser w base_dir) top) < max_depth)%Z ->
         _build_venv_info w top "discovered" = Some info ->
         exists top' info',
           _build_venv_info w top' "discovered" = Some info'
           /\ realpath w top' = realpath w top
           /\ info' ∈ discover_venvs w scan_dirs max_depth).
Proof.
  split; [exact keep_dir_iff|]. split.
  - intros b y Hy.
    pose proof (walked_pruned w max_depth b) as Hp. rewrite Forall_forall in Hp.
    destruct (walked_shape w max_depth b) as [E|(y0 & rest & E & Htop & Hrest)].
    + rewrite E in Hy. inversion Hy.
    + rewrite E in Hy. apply elem_of_cons in Hy as [->|Hy]; [left; exact Htop|].
      right. destruct (Hrest y Hy) as (p & d & Hp1 & Hd & Ey).
      exists p, d. split; [exact Hp1|]. split; [exact Hd|]. split; [|exact Ey].
      destruct (Hp p Hp1) as (_ & _ & Hkeep). apply Hkeep, Hd.
  - intros b top filenames subdirs info Hb Hdir Hreach Hcfg Hdepth Hbuild.
    unfold discover_venvs.
    apply (discover_fold_returned w max_depth scan_dirs b top filenames subdirs info);
      try assumption.
    intros r Hr. apply elem_of_empty in Hr. contradiction.
Qed.

(** On the home directory: [proj/.venv] is entered and its environment
    returned; [.git] and [node_modules] are not entered. *)
Lemma discover_skip_rules_witness :
  keep_dir ".venv" = true
  /\ (exists p d,
         p ∈ walked home_world 3 "~" /\ d ∈ y_dirnames p /\ keep_dir d = true
         /\ "/home/u/proj/.venv" = OsPath.join (y_dirpath p) d)
  /\ exists top' info',
       _build_venv_info home_world top' "discovered" = Some info'
       /\ realpath home_world top' = realpath home_world "/home/u/proj/.venv"
       /\ info' ∈ discover_venvs home_world ["~"] 3.
Proof.
  destruct (discover_skip_rules home_world ["~"] 3) as (H1 & H2 & H3).
  split; [apply H1; auto|]. split.
  - destruct (H2 "~" {| y_dirpath := "/home/u/proj/.venv"; y_dirnames := [];
                        y_filenames := ["pyvenv.cfg"] |}) as [E|H].
    + vm_compute. do 2 apply list_elem_of_further. apply list_elem_of_here.
    + vm_compute in E. discriminate.
    + exact H.
  - apply (H3 "~" "/home/u/proj/.venv" ["pyvenv.cfg"] [("lib", false, Dir [] [])]
              {| name := ".venv"; path := "/home/u/proj/.venv";
                 python_version := "3.12.1"; python_home := "";
                 is_valid := false; source := "discovered" |}).
    + apply list_elem_of_here.
    + reflexivity.
    + exact home_reaches_venv.
    + apply list_elem_of_here.
    + vm_compute. reflexivity.
    + vm_compute. reflexivity.
Defined.

(** * Further properties of the code *)

(** ** The registry: adding and removing *)

Lemma set_managed_same (config : Config) :
  set_managed config (managed_venvs config) = config.
Proof. destruct config. reflexivity. Qed.

Lemma filter_other_id (p : string) (l : list string) :
  p ∉ l -> List.filter (fun q => negb (String.eqb q p)) l = l.
Proof.
  induction l as [|x l IH]; intros Hp; simpl; [reflexivity|].
  apply not_elem_of_cons in Hp as [Hx Hl].
  destruct (String.eqb_spec x p) as [E|E]; [congruence|]. simpl.
  rewrite (IH Hl). reflexivity.
Qed.

(** X1.  [remove_managed_venv] drops every entry equal to the absolute
    form of the path, keeps all other entries in their order, touches no
    other setting, and leaves the configuration as it is when the path is
    not registered. *)
Theorem remove_managed_venv_spec (w : World) (config : Config) (venv_path : string) :
  let p := OsPath.abspath (cwd w) venv_path in
  let config' := remove_managed_venv w config venv_path in
  (p ∉ managed_venvs config')
  /\ (forall q, q <> p -> q ∈ managed_venvs config' <-> q ∈ managed_venvs config)
  /\ sublist (managed_venvs config') (managed_venvs config)
  /\ scan_directories config' = scan_directories config
  /\ scan_max_depth config' = scan_max_depth config
  /\ default_venv_location config' = default_venv_location config
  /\ (p ∉ managed_venvs config -> config' = config).
Proof.
  intros p config'. subst config'. unfold remove_managed_venv. fold p. simpl.
  assert (Hin : forall q,
             q ∈ List.filter (fun q => negb (String.eqb q p)) (managed_venvs config)
             <-> q ∈ managed_venvs config /\ q <> p).
  { intros q. rewrite !list_elem_of_In, filter_In, negb_true_iff, String.eqb_neq.
    reflexivity. }
  split; [intros H; apply Hin in H; tauto|].
  split; [intros q Hq; rewrite Hin; tauto|].
  split.
  { clear Hin. induction (managed_venvs config) as [|x l IH]; simpl; [constructor|].
    destruct (negb (String.eqb x p)); [apply sublist_skip|apply sublist_cons];
      exact IH. }
  repeat (split; [reflexivity|]).
  intros Hp. rewrite (filter_other_id p _ Hp). apply set_managed_same.
Qed.

Lemma remove_managed_venv_spec_witness :
  remove_managed_venv blank link_config "/other" = link_config.
Proof.
  apply (remove_managed_venv_spec blank link_config "/other").
  vm_compute. intros H. apply list_elem_of_singleton in H. discriminate.
Defined.

(** X2.  Adding a path and then removing it gives back the configuration
    one started from, when the path was not registered; in any case the
    added path is registered after the addition and gone after the
    removal. *)
Theorem add_then_remove (w : World) (config : Config) (venv_path : string) :
  let p := OsPath.abspath (cwd w) venv_path in
  p ∈ managed_venvs (add_managed_venv w config venv_path)
  /\ (p ∉ managed_venvs
          (remove_managed_venv w (add_managed_venv w config venv_path) venv_path))
  /\ (p ∉ managed_venvs config ->
      remove_managed_venv w (add_managed_venv w config venv_path) venv_path
      = config).
Proof.
  intros p. split; [|split].
  - unfold add_managed_venv. fold p. case_bool_decide as H; simpl.
    + apply elem_of_app. right. apply list_elem_of_here.
    + destruct (decide (p ∈ managed_venvs config)); tauto.
  - unfold remove_managed_venv. fold p. simpl.
    rewrite list_elem_of_In, filter_In, negb_true_iff, String.eqb_neq. tauto.
  - intros Hp. unfold add_managed_venv. fold p.
    rewrite bool_decide_eq_true_2 by exact Hp.
    unfold remove_managed_venv. fold p. simpl.
    rewrite List.filter_app, (filter_other_id p _ Hp). simpl.
    rewrite String.eqb_refl. simpl. rewrite app_nil_r.
    destruct config. reflexivity.
Qed.

Lemma add_then_remove_witness :
  remove_managed_venv blank (add_managed_venv blank link_config "/other") "/other"
  = link_config.
Proof.
  apply (add_then_remove blank link_config "/other").
  vm_compute. intros H. apply list_elem_of_singleton in H. discriminate.
Defined.

(** X3.  Adding the same path twice is adding it once, and an addition
    never moves or drops what was registered: the old registry is a prefix
    of the new one. *)
Theorem add_managed_venv_idempotent (w : World) (config : Config)
    (venv_path : string) :
  add_managed_venv w (add_managed_venv w config venv_path) venv_path
  = add_managed_venv w config venv_path
  /\ managed_venvs config
     `prefix_of` managed_venvs (add_managed_venv w config venv_path).
Proof.
  split.
  - unfold add_managed_venv at 1.
    rewrite bool_decide_eq_false_2; [reflexivity|].
    intros H. apply H.
    unfold add_managed_venv. case_bool_decide as Hp; simpl.
    + apply elem_of_app. right. apply list_elem_of_here.
    + destruct (decide (OsPath.abspath (cwd w) venv_path ∈ managed_venvs config));
        tauto.
  - unfold add_managed_venv. case_bool_decide; simpl.
    + apply prefix_app_r. reflexivity.
    + reflexivity.
Qed.

(** ** Order of the results *)





Section Stable.

Context {A : Type} (le : A -> A -> bool) (P : A -> bool).
Hypothesis P_le : forall x y, P x = true -> P y = true -> le x y = true.

Lemma insert_by_filter x l :
  List.filter P (insert_by le x l)
  = if P x then x :: List.filter P l else List.filter P l.
Proof.
  induction l as [|y l IH]; simpl; [destruct (P x); reflexivity|].
  destruct (le x y) eqn:Hxy; simpl.
  - destruct (P x); reflexivity.
  - rewrite IH. destruct (P x) eqn:Hx, (P y) eqn:Hy; try reflexivity.
    rewrite (P_le x y Hx Hy) in Hxy. discriminate.
Qed.

(** [sort_by] keeps the order among elements that all compare as equal. *)
Lemma sort_by_stable l : List.filter P (sort_by le l) = List.filter P l.
Proof.
  induction l as [|x l IH]; simpl; [reflexivity|].
  rewrite insert_by_filter, IH. reflexivity.
Qed.

End Stable.

Lemma string_leb_refl s : String.leb s s = true.
Proof. destruct (String.leb_total s s); assumption. Qed.

(** X5.  The sort of the merge is stable: the environments whose names
    are equal up to case come out in the order of the merge, managed
    before discovered. *)
Theorem merge_order_among_equal_names (w : World)
    (managed discovered : list VenvInfo) (k : string) :
  let same_name v := String.eqb (Py.lower (name v)) k in
  List.filter same_name (merge_venvs w managed discovered)
  = List.filter same_name (first_per_key (canonical w) managed)
    ++ List.filter same_name
         (List.filter (fun d => bool_decide (canonical w d ∉ map (canonical w) managed))
                      (first_per_key (canonical w) discovered)).
Proof.
  intros same_name. rewrite merge_venvs_eq, sort_by_stable.
  - rewrite first_per_key_app, List.filter_app. reflexivity.
  - intros x y Hx Hy. unfold same_name in *.
    apply String.eqb_eq in Hx, Hy. unfold name_le, name_key, Py.str_le.
    rewrite Hx, Hy. apply string_leb_refl.
Qed.

(** X6.  The merge loses no environment and invents none: every
    descriptor of the result is one of the given ones, and every canonical
    path of a given descriptor is the canonical path of a descriptor of
    the result. *)
Theorem merge_covers (w : World) (managed discovered : list VenvInfo) :
  (forall v, v ∈ merge_venvs w managed discovered -> v ∈ managed ++ discovered)
  /\ (forall v, v ∈ managed ++ discovered ->
        exists v', v' ∈ merge_venvs w managed discovered
                   /\ canonical w v' = canonical w v).
Proof.
  rewrite merge_venvs_eq. split.
  - intros v Hv. rewrite sort_by_perm in Hv.
    eapply first_per_key_sub, Hv.
  - intros v Hv.
    destruct (first_per_key_covers (canonical w) _ v Hv) as (v' & Hv' & E).
    exists v'. split; [|exact E]. rewrite sort_by_perm. exact Hv'.
Qed.

Lemma merge_covers_witness :
  exists v', v' ∈ merge_venvs link_world managed_list discovered_list
             /\ canonical link_world v' = "/real/env".
Proof.
  destruct (merge_covers link_world managed_list discovered_list) as [_ H].
  apply (H (venv "env" "/link/env" "discovered")).
  vm_compute. do 3 apply list_elem_of_further. apply list_elem_of_here.
Defined.

(** ** More on discovery *)

Section DiscoverMore.

Variable w : World.
Variable max_depth : Z.

Local Abbreviation step :=
  (fun st base_dir => (discover_root w max_depth st base_dir).1).

Lemma discover_body_distinct base top names filenames s :
  distinct_dirs w s ->
  distinct_dirs w (discover_body w base max_depth top names filenames s).2.
Proof.
  intros Hs.
  destruct (discover_body_cases w base max_depth top names filenames s) as (A & B & C).
  destruct (Z.le_gt_cases max_depth (Z.of_nat (depth_of base top))) as [Hd|Hd].
  { rewrite (A Hd). exact Hs. }
  destruct (decide ("pyvenv.cfg" ∈ filenames)) as [Hc|Hc].
  2: { rewrite (B Hd Hc). exact Hs. }
  destruct (C Hd Hc) as [_ [[E _]|(info & Hb & Hnew & E)]]; rewrite E; [exact Hs|].
  destruct Hs as (ds & Hbuilt & Hnd & Hseen).
  exists (ds ++ [top]). simpl. split; [|split].
  - apply Forall2_app; [exact Hbuilt|]. constructor; [exact Hb|constructor].
  - rewrite map_app. simpl. apply NoDup_app. split; [exact Hnd|]. split.
    + intros r Hr Hr'. apply list_elem_of_singleton in Hr'. subst r.
      apply list_elem_of_fmap in Hr as (d & Ed & Hd'). apply Hnew.
      rewrite Ed. apply Hseen, Hd'.
    + apply NoDup_singleton.
  - intros d Hin. apply elem_of_app in Hin as [Hin|Hin].
    + apply elem_of_union. left. apply Hseen, Hin.
    + apply list_elem_of_singleton in Hin. subst d.
      apply elem_of_union. right. apply elem_of_singleton. reflexivity.
Qed.

Lemma discover_root_distinct st base_dir :
  distinct_dirs w st -> distinct_dirs w (step st base_dir).
Proof.
  intros Hs. unfold discover_root.
  destruct (negb (isdir w (expanduser w base_dir))); [exact Hs|].
  apply (os_walk_inv _ (fun s (_ : list yielded) => distinct_dirs w s))
    with (ys := []); [|exact Hs].
  intros s ys top names filenames H. apply discover_body_distinct, H.
Qed.

Lemma discover_fold_distinct scan_dirs st :
  distinct_dirs w st -> distinct_dirs w (foldl step st scan_dirs).
Proof.
  revert st. induction scan_dirs as [|b l IH]; intros st Hs; simpl; [exact Hs|].
  apply IH, discover_root_distinct, Hs.
Qed.

Lemma discover_body_prefix base top names filenames s :
  results s `prefix_of` results (discover_body w base max_depth top names filenames s).2.
Proof.
  destruct (discover_body_cases w base max_depth top names filenames s) as (A & B & C).
  destruct (Z.le_gt_cases max_depth (Z.of_nat (depth_of base top))) as [Hd|Hd].
  { rewrite (A Hd). reflexivity. }
  destruct (decide ("pyvenv.cfg" ∈ filenames)) as [Hc|Hc].
  2: { rewrite (B Hd Hc). reflexivity. }
  destruct (C Hd Hc) as [_ [[E _]|(info & _ & _ & E)]]; rewrite E; [reflexivity|].
  simpl. apply prefix_app_r. reflexivity.
Qed.

Lemma discover_root_prefix st base_dir :
  results st `prefix_of` results (step st base_dir).
Proof.
  unfold discover_root.
  destruct (negb (isdir w (expanduser w base_dir))); [reflexivity|].
  apply (os_walk_inv _ (fun s (_ : list yielded) => results st `prefix_of` results s))
    with (ys := []); [|reflexivity].
  intros s ys top names filenames H. simpl.
  etransitivity; [exact H|apply discover_body_prefix].
Qed.

Lemma discover_fold_prefix scan_dirs st :
  results st `prefix_of` results (foldl step st scan_dirs).
Proof.
  revert st. induction scan_dirs as [|b l IH]; intros st; simpl; [reflexivity|].
  etransitivity; [apply discover_root_prefix|apply IH].
Qed.

Lemma discover_fold_skips scan_dirs st :
  foldl step st scan_dirs
  = foldl step st (List.filter (fun b => isdir w (expanduser w b)) scan_dirs).
Proof.
  revert st. induction scan_dirs as [|b l IH]; intros st; simpl; [reflexivity|].
  destruct (isdir w (expanduser w b)) eqn:Hb; simpl.
  - apply IH.
  - rewrite <- IH. f_equal. unfold discover_root. rewrite Hb. reflexivity.
Qed.

End DiscoverMore.

(** X7.  No two descriptors of one call of [discover_venvs] stand for the
    same directory: they were built, in order, at directories whose
    canonical paths are pairwise different. *)
Theorem discover_distinct (w : World) (scan_dirs : list string) (max_depth : Z) :
  exists ds,
    Forall2 (fun d info => _build_venv_info w d "discovered" = Some info)
            ds (discover_venvs w scan_dirs max_depth)
    /\ NoDup (map (realpath w) ds).
Proof.
  destruct (discover_fold_distinct w max_depth scan_dirs empty_scan)
    as (ds & H1 & H2 & _).
  - exists []. split; [constructor|]. split; [apply NoDup_nil_2|].
    intros d Hd. inversion Hd.
  - exists ds. split; [exact H1|exact H2].
Qed.

(** X8.  An environment is a leaf of the scan: a directory that holds a
    metadata file is left with no directory name, so no directory handed
    out was entered from a directory that holds one. *)
Theorem discover_environment_is_leaf (w : World) (max_depth : Z) (base_dir : string) :
  (forall y, y ∈ walked w max_depth base_dir ->
             "pyvenv.cfg" ∈ y_filenames y -> y_dirnames y = [])
  /\ (forall p d,
         p ∈ walked w max_depth base_dir -> d ∈ y_dirnames p ->
         ("pyvenv.cfg" ∉ y_filenames p)
         /\ (Z.of_nat (depth_of (expanduser w base_dir) (y_dirpath p)) < max_depth)%Z).
Proof.
  pose proof (walked_pruned w max_depth base_dir) as Hp.
  rewrite Forall_forall in Hp. split.
  - intros y Hy Hc. destruct (Hp y Hy) as (_ & H & _). exact (H Hc).
  - intros p d Hin Hd. destruct (Hp p Hin) as (H1 & H2 & _). split.
    + intros Hc. rewrite (H2 Hc) in Hd. inversion Hd.
    + destruct (Z.le_gt_cases max_depth
                  (Z.of_nat (depth_of (expanduser w base_dir) (y_dirpath p))))
        as [Hle|Hgt]; [|exact Hgt].
      rewrite (H1 Hle) in Hd. inversion Hd.
Qed.

Lemma discover_environment_is_leaf_witness :
  y_dirnames {| y_dirpath := "/home/u/proj/.venv"; y_dirnames := [];
                y_filenames := ["pyvenv.cfg"] |} = [].
Proof.
  apply (discover_environment_is_leaf home_world 3 "~").
  - vm_compute. do 2 apply list_elem_of_further. apply list_elem_of_here.
  - apply list_elem_of_here.
Defined.

(** X9.  With a depth bound of zero or less nothing is found, not even an
    environment that is a scan root itself. *)
Theorem discover_nothing_at_depth_zero (w : World) (scan_dirs : list string)
    (max_depth : Z) :
  (max_depth <= 0)%Z -> discover_venvs w scan_dirs max_depth = [].
Proof.
  intros Hd.
  destruct (discover_venvs w scan_dirs max_depth) as [|info l] eqn:E; [reflexivity|].
  exfalso.
  assert (Hin : info ∈ discover_venvs w scan_dirs max_depth)
    by (rewrite E; apply list_elem_of_here).
  unfold discover_venvs in Hin.
  apply discover_fold_found in Hin as [Hin|(b & y & _ & _ & _ & Hlt & _)].
  - inversion Hin.
  - lia.
Qed.

Lemma discover_nothing_at_depth_zero_witness :
  discover_venvs home_world ["~"] 0 = [].
Proof. apply discover_nothing_at_depth_zero. lia. Defined.

(** X10.  Scan roots that are not directories contribute nothing, and
    scanning further roots only appends: what the first roots gave stays,
    in front and in order. *)
Theorem discover_roots (w : World) (scan_dirs more : list string) (max_depth : Z) :
  discover_venvs w scan_dirs max_depth
  = discover_venvs w
      (List.filter (fun b => isdir w (expanduser w b)) scan_dirs) max_depth
  /\ discover_venvs w scan_dirs max_depth
     `prefix_of` discover_venvs w (scan_dirs ++ more) max_depth.
Proof.
  split.
  - unfold discover_venvs. rewrite discover_fold_skips. reflexivity.
  - unfold discover_venvs. rewrite foldl_app. apply discover_fold_prefix.
Qed.

(** ** How depth is counted *)

Lemma drop_length_app a b : Py.drop (String.length a) (a ++ b)%string = b.
Proof. induction a as [|c a IH]; simpl; [destruct b; reflexivity|exact IH]. Qed.

Lemma drop_length_self a : Py.drop (String.length a) a = "".
Proof. induction a as [|c a IH]; simpl; [reflexivity|exact IH]. Qed.

Lemma string_app_assoc a b c : ((a ++ b) ++ c = a ++ (b ++ c))%string.
Proof.
  induction a as [|x a IH]; [reflexivity|].
  change (String x ((a ++ b) ++ c) = String x (a ++ (b ++ c)))%string.
  f_equal. exact IH.
Qed.

Lemma count_app c a b :
  Py.count c (a ++ b)%string = Py.count c a + Py.count c b.
Proof. induction a as [|d a IH]; simpl; [reflexivity|]. rewrite IH. lia. Qed.

Lemma count_absent c s : Py.has_char c s = false -> Py.count c s = 0.
Proof.
  induction s as [|d s IH]; simpl; [reflexivity|]. intros H.
  apply orb_false_iff in H as [Hd Hs]. rewrite Hd, (IH Hs). reflexivity.
Qed.

Lemma startswith_sep_has d : Py.has_char "/" d = false -> Py.startswith "/" d = false.
Proof.
  destruct d as [|c d]; [reflexivity|]. intros H. simpl in H.
  apply orb_false_iff in H as [Hc _].
  unfold Py.startswith.
  change (String.prefix "/" (String c d))
    with (match Ascii.ascii_dec "/" c with
          | left _ => String.prefix "" d
          | right _ => false
          end).
  destruct (Ascii.ascii_dec "/" c) as [E|E]; [|reflexivity].
  subst c. vm_compute in Hc. discriminate.
Qed.

(** X11.  Depth is the number of separators after the text of the root.
    The root has depth 0; below a directory whose path does not end in a
    separator a sub-directory is one deeper; but below a path that ends in
    a separator (a root given as [dir/]) a sub-directory has the depth of
    that path, so such a root is scanned one level further down. *)
Theorem depth_of_subdirectory (base rest d : string) :
  Py.has_char "/" d = false ->
  let top := (base ++ rest)%string in
  depth_of base base = 0
  /\ (top <> "" -> Py.endswith_char "/" top = false ->
      depth_of base (OsPath.join top d) = S (depth_of base top))
  /\ (Py.endswith_char "/" top = true ->
      depth_of base (OsPath.join top d) = depth_of base top).
Proof.
  intros Hd top. unfold depth_of, OsPath.join, OsPath.sep.
  rewrite (startswith_sep_has d Hd).
  assert (Htop : Py.count "/" (Py.drop (String.length base) top)
                 = Py.count "/" rest).
  { unfold top. rewrite drop_length_app. reflexivity. }
  split; [|split].
  - rewrite drop_length_self. reflexivity.
  - intros Hne Hend. apply String.eqb_neq in Hne. rewrite Hne, Hend. simpl.
    rewrite Htop. unfold top.
    rewrite string_app_assoc, drop_length_app, count_app.
    change ("/" ++ d)%string with (String "/" d). simpl.
    rewrite (count_absent "/" d Hd). lia.
  - intros Hend. rewrite Hend, orb_true_r. rewrite Htop. unfold top.
    rewrite string_app_assoc, drop_length_app, count_app.
    rewrite (count_absent "/" d Hd). lia.
Qed.

(** The same environment under the root [/home/u] and under the root
    [/home/u/]. *)
Lemma depth_of_subdirectory_witness :
  depth_of "/home/u" (OsPath.join "/home/u" "proj") = 1
  /\ depth_of "/home/u/" (OsPath.join "/home/u/" "proj") = 0.
Proof.
  split.
  - apply (depth_of_subdirectory "/home/u" "" "proj"); [reflexivity|discriminate|reflexivity].
  - apply (depth_of_subdirectory "/home/u/" "" "proj"); reflexivity.
Defined.

(** ** What the metadata parser stores *)

Lemma lstrip_head s c t : Py.lstrip s = String c t -> Py.isspace c = false.
Proof.
  induction s as [|d s IH]; simpl; [discriminate|].
  destruct (Py.isspace d) eqn:Hd; [exact IH|]. intros [= <- <-]. exact Hd.
Qed.

Lemma rstrip_rstrip s : Py.rstrip (Py.rstrip s) = Py.rstrip s.
Proof.
  induction s as [|c s IH]; [reflexivity|]. cbn [Py.rstrip].
  destruct (Py.rstrip s) as [|d r] eqn:Hr.
  - destruct (Py.isspace c) eqn:Hc; [reflexivity|].
    cbn [Py.rstrip]. rewrite Hc. reflexivity.
  - cbn [Py.rstrip]. cbn [Py.rstrip] in IH. rewrite IH. reflexivity.
Qed.

Lemma rstrip_keeps_head c t :
  Py.isspace c = false -> exists t', Py.rstrip (String c t) = String c t'.
Proof.
  intros Hc. cbn [Py.rstrip]. destruct (Py.rstrip t); [rewrite Hc|]; eauto.
Qed.

Lemma strip_strip s : Py.strip (Py.strip s) = Py.strip s.
Proof.
  unfold Py.strip.
  destruct (Py.lstrip s) as [|c t] eqn:Hl; [reflexivity|].
  pose proof (lstrip_head _ _ _ Hl) as Hc.
  destruct (rstrip_keeps_head c t Hc) as [t' E]. rewrite E.
  cbn [Py.lstrip]. rewrite Hc, <- E. apply rstrip_rstrip.
Qed.

Lemma has_char_lstrip c s :
  Py.has_char c s = false -> Py.has_char c (Py.lstrip s) = false.
Proof.
  induction s as [|d s IH]; simpl; [auto|]. intros H.
  destruct (Py.isspace d); [|exact H].
  apply orb_false_iff in H as [_ H]. apply IH, H.
Qed.

Lemma has_char_rstrip c s :
  Py.has_char c s = false -> Py.has_char c (Py.rstrip s) = false.
Proof.
  induction s as [|d s IH]; [auto|]. cbn [Py.rstrip Py.has_char]. intros H.
  apply orb_false_iff in H as [Hd H]. specialize (IH H).
  destruct (Py.rstrip s) as [|e r].
  - destruct (Py.isspace d); [reflexivity|]. simpl. rewrite Hd. reflexivity.
  - cbn [Py.has_char] in *. rewrite Hd. exact IH.
Qed.

Lemma partition_before c s :
  Py.has_char c (Py.partition c s).1.1 = false.
Proof.
  induction s as [|d s IH]; [reflexivity|]. cbn [Py.partition].
  destruct (Ascii.eqb d c) eqn:Hd; [reflexivity|].
  destruct (Py.partition c s) as [[a m] b]. simpl in *. rewrite Hd. exact IH.
Qed.

Lemma parse_line_trimmed data line :
  trimmed_entries data -> trimmed_entries (parse_line data line).
Proof.
  intros Hdata. unfold parse_line.
  destruct (Py.has_char "=" (Py.strip line)); [|exact Hdata].
  pose proof (partition_before "=" (Py.strip line)) as Hb.
  destruct (Py.partition "=" (Py.strip line)) as [[key m] value]. simpl in Hb.
  intros k v Hk. apply lookup_insert_Some in Hk as [[<- <-]|[_ Hk]].
  - split; [apply strip_strip|]. split; [apply strip_strip|].
    unfold Py.strip. apply has_char_rstrip, has_char_lstrip, Hb.
  - exact (Hdata k v Hk).
Qed.

(** X12.  Whatever the metadata file holds, the keys and the values
    [parse_pyvenv_cfg] returns carry no white space at either end, and no
    key contains ['=']. *)
Theorem parse_pyvenv_cfg_trimmed (w : World) (venv_path k v : string) :
  parse_pyvenv_cfg w venv_path !! k = Some v ->
  Py.strip k = k /\ Py.strip v = v /\ Py.has_char "=" k = false.
Proof.
  assert (Hfold : forall lines data,
             trimmed_entries data -> trimmed_entries (foldl parse_line data lines)).
  { induction lines as [|l lines IH]; intros data Hd; simpl; [exact Hd|].
    apply IH, parse_line_trimmed, Hd. }
  assert (Hempty : trimmed_entries ∅).
  { intros k' v' H. rewrite lookup_empty in H. discriminate. }
  unfold parse_pyvenv_cfg.
  destruct (negb (path_exists w (OsPath.join venv_path "pyvenv.cfg")));
    [apply Hempty|].
  destruct (read_text w (OsPath.join venv_path "pyvenv.cfg")); [|apply Hempty].
  apply Hfold, Hempty.
Qed.

Lemma parse_pyvenv_cfg_trimmed_witness :
  Py.strip "version" = "version" /\ Py.strip "3.11.4" = "3.11.4"
  /\ Py.has_char "=" "version" = false.
Proof.
  apply (parse_pyvenv_cfg_trimmed cfg_world "/v"). vm_compute. reflexivity.
Defined.

(** ** Listing packages *)

Lemma json_item_raises p key e :
  json_item p key = Raise e -> e = TypeError \/ e = KeyError key.
Proof.
  destruct p as [s| |fields|items]; simpl; try (intros [= <-]; auto).
  destruct (List.find _ fields); [discriminate|]. intros [= <-]. auto.
Qed.

Lemma package_infos_raises items e :
  package_infos items = Raise e -> e = TypeError \/ exists key, e = KeyError key.
Proof.
  induction items as [|p items IH]; simpl; [discriminate|].
  destruct (json_item p "name") as [n|e1] eqn:Hn.
  - destruct (json_item p "version") as [v|e2] eqn:Hv.
    + destruct (package_infos items) as [l|e3]; [discriminate|].
      intros [= <-]. apply IH. reflexivity.
    + intros [= <-]. apply json_item_raises in Hv as [-> | ->]; eauto.
  - intros [= <-]. apply json_item_raises in Hn as [-> | ->]; eauto.
Qed.

Lemma package_infos_ok items :
  Forall (fun p => exists n v, json_item p "name" = Ok n
                               /\ json_item p "version" = Ok v) items ->
  exists infos,
    package_infos items = Ok infos
    /\ Forall2 (fun p i => json_item p "name" = Ok (pkg_name i)
                           /\ json_item p "version" = Ok (pkg_version i))
               items infos.
Proof.
  induction 1 as [|p items (n & v & Hn & Hv) _ (infos & E & Hall)]; simpl.
  - exists []. split; [reflexivity|constructor].
  - rewrite Hn, Hv, E. eexists. split; [reflexivity|].
    constructor; [simpl; auto|exact Hall].
Qed.

(** X13.  When the interpreter is there, pip exits with 0 and prints a
    JSON array of objects that each have a [name] and a [version],
    [list_packages] returns one package per object, in the order of the
    array, with the two values of the object, after starting pip once. *)
Theorem list_packages_listing (w : World) (venv_path stdout stderr : string)
    (items : list json) :
  let cmd := [get_venv_python venv_path; "-m"; "pip"; "list"; "--format=json"] in
  isfile w (get_venv_python venv_path) = true ->
  run w cmd 30 = Completed 0 stdout stderr ->
  json_loads w stdout = Some (JArr items) ->
  Forall (fun p => exists n v, json_item p "name" = Ok n
                               /\ json_item p "version" = Ok v) items ->
  exists infos,
    list_packages w venv_path = (Ok infos, [Spawn cmd 30])
    /\ Forall2 (fun p i => json_item p "name" = Ok (pkg_name i)
                           /\ json_item p "version" = Ok (pkg_version i))
               items infos.
Proof.
  intros cmd Hfile Hrun Hjson Hitems.
  destruct (package_infos_ok items Hitems) as (infos & E & Hall).
  exists infos. split; [|exact Hall].
  unfold list_packages. fold cmd. rewrite Hfile. simpl.
  rewrite Hrun. simpl. rewrite Hjson. simpl. rewrite E. reflexivity.
Qed.

(** X14.  [list_packages] answers the empty list when pip exits with
    another code than 0, when it runs out of time, when its output is no
    JSON, and when an object of the listing lacks a key.  An exception
    leaves [list_packages] only in two ways: starting pip raised something
    else than a time-out, or the listing is JSON of another shape than an
    array of objects ([TypeError]). *)
Theorem list_packages_failures (w : World) (venv_path : string) :
  let cmd := [get_venv_python venv_path; "-m"; "pip"; "list"; "--format=json"] in
  isfile w (get_venv_python venv_path) = true ->
  (forall rc out err,
      run w cmd 30 = Completed rc out err -> rc <> 0%Z ->
      list_packages w venv_path = (Ok [], [Spawn cmd 30]))
  /\ (run w cmd 30 = Failed TimeoutExpired ->
      list_packages w venv_path = (Ok [], [Spawn cmd 30]))
  /\ (forall out err,
         run w cmd 30 = Completed 0 out err -> json_loads w out = None ->
         list_packages w venv_path = (Ok [], [Spawn cmd 30]))
  /\ (forall out err items key,
         run w cmd 30 = Completed 0 out err ->
         json_loads w out = Some (JArr items) ->
         package_infos items = Raise (KeyError key) ->
         list_packages w venv_path = (Ok [], [Spawn cmd 30]))
  /\ (forall e,
         (list_packages w venv_path).1 = Raise e ->
         list_caught e = false
         /\ (run w cmd 30 = Failed e \/ e = TypeError)).
Proof.
  intros cmd Hfile. unfold list_packages. fold cmd. rewrite Hfile. simpl.
  split; [|split; [|split; [|split]]].
  - intros rc out err -> Hrc. apply Z.eqb_neq in Hrc. rewrite Hrc. reflexivity.
  - intros ->. reflexivity.
  - intros out err -> ->. reflexivity.
  - intros out err items key -> -> Hk. simpl. rewrite Hk. reflexivity.
  - intros e.
    destruct (run w cmd 30) as [rc out err|e'].
    + destruct (rc =? 0)%Z; simpl; [|discriminate].
      destruct (json_loads w out) as [packages|]; simpl; [|discriminate].
      destruct (json_iter packages) as [items|e1] eqn:Hiter.
      * destruct (package_infos items) as [l|e2] eqn:Hinfos; [discriminate|].
        apply package_infos_raises in Hinfos as [-> | [key ->]]; simpl;
          [|discriminate].
        intros [= <-]. auto.
      * assert (e1 = TypeError) as ->.
        { destruct packages; simpl in Hiter; congruence. }
        simpl. intros [= <-]. auto.
    + destruct (list_caught e') eqn:Hc; [discriminate|].
      intros [= <-]. auto.
Qed.

Lemma list_packages_failures_witness :
  list_caught PermissionError = false
  /\ (run (with_files [("/v/bin/python", "")] [] blank)
          [get_venv_python "/v"; "-m"; "pip"; "list"; "--format=json"] 30
      = Failed FileNotFoundError
      \/ FileNotFoundError = TypeError).
Proof.
  split; [reflexivity|].
  apply (list_packages_failures (with_files [("/v/bin/python", "")] [] blank) "/v").
  - reflexivity.
  - reflexivity.
Defined.

(** ** Bulk removal and upgrade, and creation *)




Example bulk_remove_stops :
  do_remove pip_after pip_world "/v" ["a"; "b"; "c"]
  = (Raise (VenvError ("pip uninstall failed:" ++ nl
                       ++ "WARNING: Skipping b as it is not installed.")%string),
     [uninstall_of "/v" "a"; uninstall_of "/v" "b"]).
Proof. vm_compute. reflexivity. Qed.

(** X16.  [create_venv] starts the interpreter once, with
    [-m venv <path>], with [--without-pip] exactly when pip is not wanted
    and [--system-site-packages] exactly when it is asked for.  It returns
    a descriptor only if the command exited with 0 and the path then holds
    readable metadata; that descriptor has provenance ["managed"], the
    last component of the path as its name and the absolute path.  A
    non-zero exit gives the error that carries the command's standard
    error, whatever the path holds. *)
Theorem create_venv_spec (after : World -> effect -> World) (w : World)
    (p python_path : string) (with_pip system_site_packages : bool) :
  let cmd := create_cmd p python_path with_pip system_site_packages in
  let r := create_venv after w p python_path with_pip system_site_packages in
  r.2 = [Spawn cmd 120]
  /\ take 4 cmd = [python_path; "-m"; "venv"; p]
  /\ ("--without-pip" ∈ drop 4 cmd <-> with_pip = false)
  /\ ("--system-site-packages" ∈ drop 4 cmd <-> system_site_packages = true)
  /\ (forall info,
         r.1 = Ok info ->
         (exists out err, run w cmd 120 = Completed 0 out err)
         /\ _build_venv_info (after w (Spawn cmd 120)) p "managed" = Some info
         /\ source info = "managed"
         /\ name info = OsPath.basename p
         /\ path info = OsPath.abspath (cwd (after w (Spawn cmd 120))) p)
  /\ (forall rc out err,
         run w cmd 120 = Completed rc out err -> rc <> 0%Z ->
         r.1 = Raise (VenvError ("Failed to create venv:" ++ String "010" err))).
Proof.
  intros cmd r. subst r. unfold create_venv. fold cmd. cbn [fst snd].
  split; [reflexivity|]. split; [reflexivity|].
  split; [|split; [|split]].
  - subst cmd. unfold create_cmd.
    destruct with_pip, system_site_packages; simpl; split; intros H;
      try reflexivity; try discriminate;
      repeat (apply elem_of_cons in H as [H|H]; [discriminate|]);
      try (inversion H); apply list_elem_of_here.
  - subst cmd. unfold create_cmd.
    destruct with_pip, system_site_packages; simpl; split; intros H;
      try reflexivity; try discriminate;
      repeat (apply elem_of_cons in H as [H|H]; [discriminate|]);
      try (inversion H);
      first [apply list_elem_of_here | apply list_elem_of_further, list_elem_of_here].
  - intros info.
    destruct (run w cmd 120) as [rc out err|e]; [|discriminate].
    destruct (Z.eqb_spec rc 0) as [->|Hrc]; simpl; [|discriminate].
    destruct (_build_venv_info (after w (Spawn cmd 120)) p "managed")
      as [info'|] eqn:Hb; [|discriminate].
    intros [= <-]. split; [eauto|]. split; [reflexivity|].
    apply build_fields in Hb. tauto.
  - intros rc out err -> Hrc. apply Z.eqb_neq in Hrc. rewrite Hrc. reflexivity.
Qed.

Lemma create_venv_spec_witness :
  (exists out err,
      run pip_world (create_cmd "/envs/new" "/usr/bin/python3" true false) 120
      = Completed 0 out err)
  /\ _build_venv_info
       (pip_after pip_world
          (Spawn (create_cmd "/envs/new" "/usr/bin/python3" true false) 120))
       "/envs/new" "managed"
     = Some {| name := "new"; path := "/envs/new"; python_version := "3.12.1";
               python_home := "/usr/bin"; is_valid := false; source := "managed" |}
  /\ source {| name := "new"; path := "/envs/new"; python_version := "3.12.1";
               python_home := "/usr/bin"; is_valid := false; source := "managed" |}
     = "managed"
  /\ name {| name := "new"; path := "/envs/new"; python_version := "3.12.1";
             python_home := "/usr/bin"; is_valid := false; source := "managed" |}
     = OsPath.basename "/envs/new"
  /\ path {| name := "new"; path := "/envs/new"; python_version := "3.12.1";
             python_home := "/usr/bin"; is_valid := false; source := "managed" |}
     = OsPath.abspath
         (cwd (pip_after pip_world
                 (Spawn (create_cmd "/envs/new" "/usr/bin/python3" true false) 120)))
         "/envs/new".
Proof.
  apply (create_venv_spec pip_after pip_world "/envs/new" "/usr/bin/python3" true false).
  vm_compute. reflexivity.
Defined.

Lemma list_packages_listing_witness :
  exists infos,
    list_packages pip_world "/v"
    = (Ok infos,
       [Spawn [get_venv_python "/v"; "-m"; "pip"; "list"; "--format=json"] 30])
    /\ Forall2 (fun p i => json_item p "name" = Ok (pkg_name i)
                           /\ json_item p "version" = Ok (pkg_version i))
               [JObj [("name", JStr "pip"); ("version", JStr "24.0")]] infos.
Proof.
  apply (list_packages_listing pip_world "/v" pip_listing "").
  - reflexivity.
  - vm_compute. reflexivity.
  - vm_compute. reflexivity.
  - repeat constructor. eexists _, _. split; reflexivity.
Defined.

(** ** The supervisor's registry *)

Section Registry.

Import Workers.
Context {R : Type}.

(** X17.  Submitting or completing a task under one id leaves the
    entries of all other ids as they are, and erases none of the calls
    made before; after a submission the id names the new task. *)
Theorem registry_other_ids (tm : TaskManager R) (task_id other : string)
    (status_msg : option string) (task : nat) (with_on_error : bool)
    (s : signal R) :
  other <> task_id ->
  _tasks (submit tm task_id status_msg).1 !! other = _tasks tm !! other
  /\ _tasks (deliver tm task_id task with_on_error s) !! other = _tasks tm !! other
  /\ _tasks (submit tm task_id status_msg).1 !! task_id
     = Some (submit tm task_id status_msg).2
  /\ calls tm `prefix_of` calls (submit tm task_id status_msg).1
  /\ calls tm `prefix_of` calls (deliver tm task_id task with_on_error s).
Proof.
  intros Hne. split; [|split; [|split; [|split]]].
  - simpl. apply lookup_insert_ne. congruence.
  - destruct s; simpl; apply lookup_delete_ne; congruence.
  - simpl. apply lookup_insert_eq.
  - simpl. apply prefix_app_r. reflexivity.
  - destruct s; simpl; apply prefix_app_r; reflexivity.
Qed.


End Registry.

Lemma registry_other_ids_witness :
  Workers._tasks (Workers.submit (Workers.init (R := unit) true) "refresh" None).1 !! "list_packages"
  = Workers._tasks (Workers.init (R := unit) true) !! "list_packages".
Proof.
  apply (registry_other_ids (Workers.init true) "refresh" "list_packages" None 0 true
           (Workers.finished tt)).
  discriminate.
Defined.


(** ** The list of environments in the window *)

Lemma rows_of_filter {A B C} (skip : A -> bool) (mk : A -> B) (f : B -> C)
    (h : A -> C) (l : list A) :
  (forall v, f (mk v) = h v) ->
  map f (flat_map (fun v => if skip v then [] else [mk v]) l)
  = map h (List.filter (fun v => negb (skip v)) l).
Proof.
  intros H. induction l as [|v l IH]; simpl; [reflexivity|].
  destruct (skip v); simpl; rewrite IH, ?H; reflexivity.
Qed.

(** X19.  The rows shown and the list a selection is looked up in are
    filtered alike: the i-th row carries the path of the i-th filtered
    environment, whatever the filter text.  So a valid row selects the
    environment it shows; a negative row clears the selection; a row past
    the end leaves it as it was. *)
Theorem rows_match_selection (text : string) (all_venvs : list VenvInfo)
    (selected_venv : option VenvInfo) (r : Z) :
  map row_data (_populate_venv_list text all_venvs)
  = map path (_get_filtered_venvs text all_venvs)
  /\ ((r < 0)%Z -> _on_venv_selected text all_venvs selected_venv r = None)
  /\ ((Z.of_nat (List.length (_populate_venv_list text all_venvs)) <= r)%Z ->
      _on_venv_selected text all_venvs selected_venv r = selected_venv)
  /\ (forall shown,
         (0 <= r)%Z ->
         _populate_venv_list text all_venvs !! Z.to_nat r = Some shown ->
         exists v, _on_venv_selected text all_venvs selected_venv r = Some v
                   /\ v ∈ all_venvs /\ path v = row_data shown).
Proof.
  assert (Hrows : map row_data (_populate_venv_list text all_venvs)
                  = map path (_get_filtered_venvs text all_venvs)).
  { unfold _populate_venv_list, _get_filtered_venvs.
    etransitivity.
    - apply (rows_of_filter
               (fun v => negb (String.eqb (Py.lower text) "")
                         && negb (contains (Py.lower text) (Py.lower (name v))))
               (fun v => {| row_label := (name v ++ "  (" ++ python_version v ++ ")")%string;
                            row_data := path v;
                            row_grey := negb (is_valid v) |})
               row_data path).
      reflexivity.
    - f_equal. apply filter_ext. intros v.
      destruct (String.eqb (Py.lower text) ""),
               (contains (Py.lower text) (Py.lower (name v))); reflexivity. }
  assert (Hlen : List.length (_populate_venv_list text all_venvs)
                 = List.length (_get_filtered_venvs text all_venvs)).
  { rewrite <- (length_map row_data), Hrows, length_map. reflexivity. }
  split; [exact Hrows|]. unfold _on_venv_selected. split; [|split].
  - intros Hr. apply Z.ltb_lt in Hr. rewrite Hr. reflexivity.
  - intros Hr. rewrite Hlen in Hr.
    destruct (Z.ltb_spec r 0); [lia|].
    rewrite (proj2 (Z.geb_le _ _)) by lia. reflexivity.
  - intros shown Hr Hshown.
    assert (Hlt : Z.to_nat r < List.length (_populate_venv_list text all_venvs))
      by (apply lookup_lt_Some in Hshown; exact Hshown).
    destruct (Z.ltb_spec r 0); [lia|].
    destruct (Z.geb_spec r (Z.of_nat (List.length (_get_filtered_venvs text all_venvs))));
      [lia|].
    destruct (_get_filtered_venvs text all_venvs !! Z.to_nat r) as [v|] eqn:Hv.
    + exists v. split; [reflexivity|]. split.
      * apply list_elem_of_lookup_2 in Hv.
        apply list_elem_of_In, filter_In in Hv as [Hv _].
        apply list_elem_of_In, Hv.
      * assert (H1 : map row_data (_populate_venv_list text all_venvs) !! Z.to_nat r
                     = Some (row_data shown))
          by (rewrite list_lookup_fmap, Hshown; reflexivity).
        rewrite Hrows, list_lookup_fmap, Hv in H1. simpl in H1. congruence.
    + apply lookup_ge_None in Hv. lia.
Qed.

Lemma rows_match_selection_witness :
  _on_venv_selected "ZE" managed_list None (-1) = None
  /\ exists v, _on_venv_selected "ZE" managed_list None 0 = Some v
               /\ v ∈ managed_list /\ path v = "/envs/Zeta".
Proof.
  destruct (rows_match_selection "ZE" managed_list None (-1)) as (_ & H1 & _).
  split; [apply H1; lia|].
  destruct (rows_match_selection "ZE" managed_list None 0) as (_ & _ & _ & H).
  apply (H {| row_label := "Zeta  (3.12.1)"; row_data := "/envs/Zeta";
              row_grey := false |}); [lia|].
  vm_compute. reflexivity.
Defined.

(** ** Provenance in the refreshed list *)

Lemma load_managed_sources w paths v :
  v ∈ load_managed_venvs w paths ->
  source v = "managed" \/ source v = "managed (missing)" /\ is_valid v = false.
Proof.
  unfold load_managed_venvs. rewrite load_managed_fold. simpl.
  intros Hv. apply list_elem_of_In, in_flat_map in Hv as (p & _ & Hv).
  apply list_elem_of_In in Hv. revert Hv.
  unfold managed_entry, load_managed_step.
  destruct (isdir w p && path_exists w (OsPath.join p "pyvenv.cfg")); simpl.
  - destruct (_build_venv_info w p "managed") as [info|] eqn:Hb; simpl;
      intros Hv; [|inversion Hv].
    apply list_elem_of_singleton in Hv. subst v. left.
    apply build_fields in Hb. tauto.
  - intros Hv. apply list_elem_of_singleton in Hv. subst v. right. auto.
Qed.

Lemma discover_sources w scan_dirs max_depth v :
  v ∈ discover_venvs w scan_dirs max_depth -> source v = "discovered".
Proof.
  unfold discover_venvs. intros Hv.
  apply discover_fold_found in Hv as [Hv|(b & y & _ & _ & Hb & _)];
    [inversion Hv|].
  apply build_fields in Hb. tauto.
Qed.

Lemma merge_managed_wins w managed discovered v m :
  v ∈ merge_venvs w managed discovered -> m ∈ managed ->
  canonical w m = canonical w v -> v ∈ managed.
Proof.
  rewrite merge_venvs_eq, sort_by_perm, first_per_key_app.
  intros Hv Hm E. apply elem_of_app in Hv as [Hv|Hv].
  - eapply first_per_key_sub, Hv.
  - exfalso. apply list_elem_of_In, filter_In in Hv as [_ Hv].
    apply bool_decide_eq_true_1 in Hv. apply Hv.
    rewrite <- E. apply list_elem_of_fmap. eauto.
Qed.

(** X20.  In the list [do_refresh] returns every environment carries one
    of the three provenance tags, a placeholder of a missing registration
    is never valid, and an environment whose canonical path is that of a
    registered one is shown as registered, never as discovered. *)
Theorem do_refresh_provenance (w : World) (config : Config) (v : VenvInfo) :
  v ∈ do_refresh w config ->
  (source v = "managed"
   \/ source v = "managed (missing)" /\ is_valid v = false
   \/ source v = "discovered")
  /\ (forall m, m ∈ load_managed_venvs w (managed_venvs config) ->
                canonical w m = canonical w v -> source v <> "discovered").
Proof.
  unfold do_refresh. intros Hv. split.
  - rewrite merge_venvs_eq, sort_by_perm in Hv.
    apply first_per_key_sub, elem_of_app in Hv as [Hv|Hv].
    + apply load_managed_sources in Hv. tauto.
    + apply discover_sources in Hv. tauto.
  - intros m Hm E.
    pose proof (merge_managed_wins _ _ _ _ _ Hv Hm E) as Hin.
    apply load_managed_sources in Hin as [H|[H _]]; rewrite H; discriminate.
Qed.

Lemma do_refresh_provenance_witness :
  do_refresh link_world link_config
  = [ {| name := "env"; path := "/real/env"; python_version := "unknown";
         python_home := "/usr/bin"; is_valid := false; source := "managed" |} ]
  /\ ("managed" = "managed"
      \/ "managed" = "managed (missing)" /\ false = false
      \/ "managed" = "discovered").
Proof.
  assert (H : do_refresh link_world link_config
              = [ {| name := "env"; path := "/real/env"; python_version := "unknown";
                     python_home := "/usr/bin"; is_valid := false;
                     source := "managed" |} ]).
  { vm_compute. reflexivity. }
  split; [exact H|].
  apply (do_refresh_provenance link_world link_config
           {| name := "env"; path := "/real/env"; python_version := "unknown";
              python_home := "/usr/bin"; is_valid := false; source := "managed" |}).
  rewrite H. apply list_elem_of_here.
Defined.

(** ** What the locator returns *)

Lemma detect_candidates (w : World) (l : list PythonInstall) :
  detect_python_versions w = Ok l ->
  Permutation l (first_per_key (target w) (verified_installs w)).
Proof.
  unfold detect_python_versions. rewrite probe_loops_flat. fold (scan_order w).
  destruct (foldl (probe_candidate w) _ (scan_order w)) as [s|e] eqn:Hf;
    [|discriminate].
  intros [= <-]. apply probe_fold in Hf as [Hcs _]. simpl in Hcs.
  rewrite sort_by_perm, Hcs. unfold verified_installs.
  rewrite forallb_filter_id; [reflexivity|].
  apply forallb_forall. intros i _. apply bool_decide_eq_true_2. set_solver.
Qed.

Lemma search_pattern_tags (w : World) (ps : string * string) :
  ps ∈ search_patterns w ->
  ps.2 ∈ ["system"; "homebrew"; "python.org"; "pyenv"].
Proof.
  unfold search_patterns. intros H. apply elem_of_app in H as [H|H].
  - repeat (apply elem_of_cons in H as [->|H]; [simpl; set_solver|]).
    inversion H.
  - destruct (isdir w (expanduser w "~/.pyenv/versions")); [|inversion H].
    apply list_elem_of_singleton in H. subst ps. simpl. set_solver.
Qed.

(** X21.  Every interpreter [detect_python_versions] returns was found
    by one of the search patterns, is executable, and answered
    [--version] with exit code 0; its version is that answer, stripped and
    with ["Python "] taken out, and its tag is the tag of the pattern, one
    of the four the code knows. *)
Theorem detect_entries_verified (w : World) (l : list PythonInstall)
    (i : PythonInstall) :
  detect_python_versions w = Ok l -> i ∈ l ->
  (pi_path i, pi_source i) ∈ scan_order w
  /\ access_x w (pi_path i) = true
  /\ (exists out err,
         run w [pi_path i; "--version"] 5 = Completed 0 out err
         /\ pi_version i = Py.replace "Python " "" (Py.strip out))
  /\ pi_source i ∈ ["system"; "homebrew"; "python.org"; "pyenv"].
Proof.
  intros Hd Hi. rewrite (detect_candidates w l Hd) in Hi.
  apply first_per_key_sub in Hi. unfold verified_installs in Hi.
  apply list_elem_of_omap in Hi as (c & Hc & Hv).
  assert (Htag : c.2 ∈ ["system"; "homebrew"; "python.org"; "pyenv"]).
  { unfold scan_order in Hc.
    apply list_elem_of_In, in_flat_map in Hc as (ps & Hps & Hc).
    apply in_map_iff in Hc as (p & <- & _). simpl.
    apply search_pattern_tags with (w := w), list_elem_of_In, Hps. }
  unfold verified in Hv.
  destruct (access_x w c.1) eqn:Hx; [|discriminate].
  destruct (run w [c.1; "--version"] 5) as [rc out err|e] eqn:Hr; [|discriminate].
  destruct (Z.eqb_spec rc 0) as [->|]; [|discriminate].
  injection Hv as <-. simpl.
  split; [destruct c; exact Hc|]. split; [exact Hx|].
  split; [eauto|exact Htag].
Qed.

Lemma detect_entries_verified_witness :
  access_x detect_world "/usr/bin/python3" = true
  /\ exists out err,
       run detect_world ["/usr/bin/python3"; "--version"] 5 = Completed 0 out err
       /\ "3.9.6" = Py.replace "Python " "" (Py.strip out).
Proof.
  destruct (detect_entries_verified detect_world
              [ {| pi_path := "/opt/homebrew/bin/python3"; pi_version := "3.12.1";
                   pi_source := "homebrew" |};
                {| pi_path := "/usr/bin/python3"; pi_version := "3.9.6";
                   pi_source := "system" |} ]
              {| pi_path := "/usr/bin/python3"; pi_version := "3.9.6";
                 pi_source := "system" |}) as (_ & H1 & H2 & _).
  - vm_compute. reflexivity.
  - apply list_elem_of_further, list_elem_of_here.
  - split; [exact H1|exact H2].
Defined.

(** ** The name of an environment *)

Lemma split_nonempty c s : Py.split c s <> [].
Proof.
  destruct s as [|d s]; simpl; [discriminate|].
  destruct (Ascii.eqb d c); [discriminate|].
  destruct (Py.split c s); discriminate.
Qed.

Lemma split_app_sep c a b :
  Py.split c (a ++ String c b)%string = Py.split c a ++ Py.split c b.
Proof.
  induction a as [|x a IH].
  - simpl. rewrite Ascii.eqb_refl. reflexivity.
  - change (String x a ++ String c b)%string with (String x (a ++ String c b)).
    cbn [Py.split]. rewrite IH.
    destruct (Ascii.eqb x c); [reflexivity|].
    pose proof (split_nonempty c a) as Hne.
    destruct (Py.split c a) as [|h t]; [contradiction|]. reflexivity.
Qed.

Lemma split_without_sep c s : Py.has_char c s = false -> Py.split c s = [s].
Proof.
  induction s as [|d s IH]; simpl; [reflexivity|]. intros H.
  apply orb_false_iff in H as [Hd Hs]. rewrite Hd, (IH Hs). reflexivity.
Qed.

Lemma last_app_nonempty {A} (l1 l2 : list A) d :
  l2 <> [] -> List.last (l1 ++ l2) d = List.last l2 d.
Proof.
  intros Hne. induction l1 as [|x l1 IH]; [reflexivity|].
  simpl. destruct (l1 ++ l2) eqn:E; [|exact IH].
  apply app_eq_nil in E as [_ E]. contradiction.
Qed.

Lemma endswith_char_split c s :
  Py.endswith_char c s = true -> exists a, s = (a ++ String c "")%string.
Proof.
  induction s as [|d s IH]; [discriminate|]. cbn [Py.endswith_char].
  destruct s as [|e s'].
  - intros H. apply Ascii.eqb_eq in H. subst d. exists "". reflexivity.
  - intros H. destruct (IH H) as [a E]. exists (String d a). rewrite E. reflexivity.
Qed.

Lemma basename_join top d :
  Py.has_char "/" d = false -> OsPath.basename (OsPath.join top d) = d.
Proof.
  intros Hd. unfold OsPath.basename, OsPath.join, OsPath.sep.
  rewrite (startswith_sep_has d Hd).
  destruct (String.eqb_spec top "") as [->|Hne]; simpl.
  - change ("" ++ d)%string with d.
    rewrite (split_without_sep "/" d Hd). reflexivity.
  - destruct (Py.endswith_char "/" top) eqn:Hend.
    + destruct (endswith_char_split _ _ Hend) as [a ->].
      rewrite string_app_assoc. change (String "/" "" ++ d)%string with (String "/" d).
      rewrite split_app_sep, last_app_nonempty by apply split_nonempty.
      rewrite (split_without_sep "/" d Hd). reflexivity.
    + change ("/" ++ d)%string with (String "/" d).
      rewrite split_app_sep, last_app_nonempty by apply split_nonempty.
      rewrite (split_without_sep "/" d Hd). reflexivity.
Qed.

(** X22.  The name of a descriptor is the last component of the path it
    was built at: for a directory entered under the name [d] it is [d]
    itself, so every project environment kept in [.venv] is named
    [.venv]; for a path that ends in a separator it is empty. *)
Theorem descriptor_name (w : World) (top d src : string) (info : VenvInfo) :
  (Py.has_char "/" d = false ->
   _build_venv_info w (OsPath.join top d) src = Some info -> name info = d)
  /\ (Py.endswith_char "/" top = true ->
      _build_venv_info w top src = Some info -> name info = "").
Proof.
  split.
  - intros Hd Hb. apply build_fields in Hb as (_ & _ & Hn & _).
    rewrite Hn. apply basename_join, Hd.
  - intros Hend Hb. apply build_fields in Hb as (_ & _ & Hn & _).
    rewrite Hn. unfold OsPath.basename, OsPath.sep.
    destruct (endswith_char_split _ _ Hend) as [a ->].
    rewrite split_app_sep, last_app_nonempty by apply split_nonempty.
    reflexivity.
Qed.

Lemma descriptor_name_witness :
  name {| name := ".venv"; path := "/home/u/proj/.venv";
          python_version := "3.12.1"; python_home := "";
          is_valid := false; source := "discovered" |} = ".venv".
Proof.
  apply (descriptor_name home_world "/home/u/proj" ".venv" "discovered").
  - reflexivity.
  - vm_compute. reflexivity.
Defined.

(** ** A descriptor stands for a metadata file *)




(** ** The scan walks only what it reaches *)

Section WalkedReached.

Variable w : World.
Variable base : string.
Variable max_depth : Z.

Local Abbreviation body := (discover_body w base max_depth).

Lemma walk_subdirs_from (walk : string -> tree -> scan -> scan * list yielded)
    top dirnames es s y :
  y ∈ (walk_subdirs walk top dirnames es s).2 ->
  exists d sub s',
    (d, false, sub) ∈ es /\ d ∈ dirnames
    /\ y ∈ (walk (OsPath.join top d) sub s').2.
Proof.
  revert s. induction es as [|[[d l] sub] es IH]; intros s Hy; [inversion Hy|].
  rewrite walk_subdirs_cons in Hy.
  destruct (bool_decide (d ∈ dirnames)) eqn:Hd; simpl in Hy.
  - destruct l; simpl in Hy.
    + destruct (IH _ Hy) as (d' & sub' & s' & H1 & H2 & H3).
      exists d', sub', s'. split; [apply list_elem_of_further, H1|auto].
    + apply elem_of_app in Hy as [Hy|Hy].
      * exists d, sub, s. split; [apply list_elem_of_here|].
        split; [apply bool_decide_eq_true_1 in Hd; exact Hd|exact Hy].
      * destruct (IH _ Hy) as (d' & sub' & s' & H1 & H2 & H3).
        exists d', sub', s'. split; [apply list_elem_of_further, H1|auto].
  - destruct (IH _ Hy) as (d' & sub' & s' & H1 & H2 & H3).
    exists d', sub', s'. split; [apply list_elem_of_further, H1|auto].
Qed.

Lemma os_walk_reached t :
  forall top s y,
    reaches w base max_depth top t ->
    y ∈ (os_walk body top t s).2 ->
    exists filenames subdirs,
      reaches w base max_depth (y_dirpath y) (Dir filenames subdirs)
      /\ y_filenames y = filenames.
Proof.
  induction t as [filenames subdirs IH] using tree_ind'.
  intros top s y Hreach Hy. rewrite os_walk_eq in Hy. cbn [fst snd] in Hy.
  apply elem_of_cons in Hy as [->|Hy].
  - exists filenames, subdirs. split; [exact Hreach|reflexivity].
  - apply walk_subdirs_from in Hy as (d & sub & s' & Hsub & Hd & Hy).
    rewrite Forall_forall in IH.
    apply (IH (d, false, sub) Hsub (OsPath.join top d) s' y); [|exact Hy].
    destruct (discover_body_cases w base max_depth top
                (map (fun e => e.1.1) subdirs) filenames s) as (A & B & C).
    destruct (Z.le_gt_cases max_depth (Z.of_nat (depth_of base top))) as [Hle|Hgt].
    { rewrite (A Hle) in Hd. inversion Hd. }
    destruct (decide ("pyvenv.cfg" ∈ filenames)) as [Hc|Hc].
    { destruct (C Hgt Hc) as [E _]. rewrite E in Hd. inversion Hd. }
    rewrite (B Hgt Hc) in Hd. simpl in Hd.
    apply list_elem_of_In, filter_In in Hd as [_ Hkeep].
    apply (reaches_sub w base max_depth top filenames subdirs d sub);
      assumption.
Qed.

End WalkedReached.

(** X24.  Whatever the scan of a root hands out it reached from the root
    through sub-directories that are no symbolic links, whose names pass
    the filter, below directories within the depth bound that hold no
    metadata file: the scan follows no link and enters nothing else. *)
Theorem walked_is_reached (w : World) (max_depth : Z) (base_dir : string)
    (y : yielded) :
  y ∈ walked w max_depth base_dir ->
  exists filenames subdirs,
    reaches w (expanduser w base_dir) max_depth (y_dirpath y)
            (Dir filenames subdirs)
    /\ y_filenames y = filenames.
Proof.
  unfold walked, discover_root.
  destruct (negb (isdir w (expanduser w base_dir))); [intros H; inversion H|].
  apply os_walk_reached. apply reaches_root.
Qed.

Lemma walked_is_reached_witness :
  exists filenames subdirs,
    reaches home_world (expanduser home_world "~") 3 "/home/u/proj/.venv"
            (Dir filenames subdirs)
    /\ ["pyvenv.cfg"] = filenames.
Proof.
  apply (walked_is_reached home_world 3 "~"
           {| y_dirpath := "/home/u/proj/.venv"; y_dirnames := [];
              y_filenames := ["pyvenv.cfg"] |}).
  vm_compute. do 2 apply list_elem_of_further. apply list_elem_of_here.
Defined.

Example contains_ex :
  contains "ze" "zeta" = true /\ contains "ta" "zeta" = true
  /\ contains "" "" = true /\ contains "az" "zeta" = false.
Proof. repeat split. Qed.
